(** * netsim: a sweep of ad-hoc Wi-Fi simulations and its flow report

    A shallow embedding of [src/main.cc].  The program is a driver of the
    ns-3 engine: every call into the engine is recorded as an [Event] of a
    trace, the console is part of the same trace, and the two local
    objects the program mutates (the node container and its copy of the
    flow-statistics map) are threaded as state. *)

From Stdlib Require Import ZArith List String Ascii Lia Bool.
From Stdlib Require Import Floats.SpecFloat.
From stdpp Require Import base list gmap pretty.

Local Open Scope string_scope.
Local Open Scope list_scope.
Local Open Scope Z_scope.

(** ** Machine numbers

    An [int] is modelled in [Z].  The counters and node counts of the
    program stay far below [INT_MAX] (the sweep stops at 30 nodes), and a
    statement that needs a bound carries it. *)

Definition INT_MAX : Z := 2147483647.
Definition UINT32_MAX : Z := 4294967295.

(** Conversion of an [int] to [uint32_t], as at [NodeContainer::Get],
    [NodeContainer::Create] and the key of the flow map. *)
Definition to_uint32 (z : Z) : Z := z mod 2 ^ 32.

(** Conversion of an [int] to [uint64_t], as at [UintegerValue]. *)
Definition to_uint64 (z : Z) : Z := z mod 2 ^ 64.

(** IEEE 754 binary64, the C++ [double]: 53 bits of precision, infinities
    at exponent 1024, round to nearest even. *)
Definition double : Type := spec_float.
Definition Z2double (z : Z) : double := binary_normalize 53 1024 z 0 false.
Definition dmul : double -> double -> double := SFmul 53 1024.
Definition ddiv : double -> double -> double := SFdiv 53 1024.

(** ** The engine's time type *)

(** Modelled from the spec: [ns3::Time] is declared by the engine, not in
    src/.  The specification has start and stop times in seconds, the
    duration as stop time minus start time, and the mean delay as
    delaySum / rxPackets.  Here a time is the engine's count of
    nanoseconds; [Seconds] is only applied to whole numbers in this
    program. *)
Definition Time : Type := Z.
Definition Seconds (s : Z) : Time := s * 10 ^ 9.
Definition GetSeconds (t : Time) : double := ddiv (Z2double t) (Z2double (10 ^ 9)).
(** Modelled from the spec: the mean delay is delaySum / rxPackets; on
    the count of nanoseconds it is the integer division of C++, which
    truncates. *)
Definition time_div (t : Time) (n : Z) : Time := Z.quot t n.

(** ** Simulation constants

    The four grid constants are [double]s holding whole numbers, kept here
    as integers. *)

Definition kGridWidth : Z := 6.
Definition kMinX : Z := 0.
Definition kMinY : Z := 0.
Definition kDeltaX : Z := 5.
Definition kDeltaY : Z := 10.
Definition kPort : Z := 443.
Definition kPacketSize : Z := 512.
Definition kSimulationStartTime : Time := Seconds 1.
Definition kSimulationStopTime : Time := Seconds 25.

(** ** Flow records *)

(** Modelled from the spec: [FlowMonitor::FlowStats] is declared by the
    engine, not in src/.  Section 3 of the specification lists the six
    counters of a FlowRecord, which are the six fields the program reads.
    Value-initialisation, which [std::map::operator[]] performs for a
    missing key, zeroes every one of them. *)
Record FlowStats : Type := mkFlowStats {
  txBytes : Z;
  rxBytes : Z;
  txPackets : Z;
  rxPackets : Z;
  lostPackets : Z;
  delaySum : Time
}.

Definition FlowStats_default : FlowStats := mkFlowStats 0 0 0 0 0 0.

Abbreviation FlowStatsContainer := (gmap Z FlowStats).

(** ** Console tokens and engine events

    A [Token] is one operand of [cout <<].  An [Event] is one call into
    the engine, or a short fixed group of calls on one helper object:
    [WifiInstall] is the Wi-Fi helper set to its standard, the default
    channel, the MAC type and [Install]; [EchoClientInstall] is the client
    helper built on the remote address and port, its three [SetAttribute]
    (the packet count as the [UintegerValue] holds it, the interval in
    milliseconds, the packet size), [Install] on the node, [Start] and
    [Stop]; [EchoServerInstall] is the
    server helper with its [Install], [Start] and [Stop];
    [AnimationOpen] and [AnimationClose] are the construction and the end
    of scope of the [AnimationInterface]. *)

Inductive Token : Type :=
| Str (s : string)
| IntTok (z : Z)
| DblTok (d : double)
| TimeTok (t : Time)
| Endl.

Inductive Event : Type :=
| LogComponentEnable (component : string)
| ConfigSetDefault (name : string) (value : Z)
| NodesCreate (n : Z)
| SetPositionAllocator (minX minY deltaX deltaY gridWidth : Z) (layout : string)
| SetMobilityModel (model : string)
| MobilityInstall (n : Z)
| WifiInstall (standard mac : string) (n : Z)
| InternetStackInstall (n : Z)
| AddressAssign (base mask : string)
| PopulateRoutingTables
| EnablePcap (filename : string) (device : Z)
| FlowMonitorInstallAll
| EchoClientInstall (node remote port maxPackets interval packetSize : Z) (start stop : Time)
| EchoServerInstall (node port : Z) (start stop : Time)
| SimulatorStop (t : Time)
| SimulatorRun
| SimulatorDestroy
| SerializeToXmlFile (filename : string)
| AnimationOpen (filename : string)
| SetConstantPosition (node x y : Z)
| AnimationClose
| CheckForLostPackets
| Cout (t : Token).

(** ** Programs: a state and a trace *)

Definition Prog (St A : Type) : Type := St -> A * St * list Event.

Definition ret {St A} (a : A) : Prog St A := fun s => (a, s, []).

Definition bind {St A B} (m : Prog St A) (k : A -> Prog St B) : Prog St B :=
  fun s =>
    let '(a, s1, t1) := m s in
    let '(b, s2, t2) := k a s1 in
    (b, s2, t1 ++ t2).

Notation "'do' x <- m ; k" := (bind m (fun x => k))
  (at level 10, x name, m at level 100, k at level 200).
Notation "m >> k" := (bind m (fun _ => k))
  (at level 90, right associativity).

Definition emit {St} (e : Event) : Prog St unit := fun s => (tt, s, [e]).
Definition cout {St} (t : Token) : Prog St unit := emit (Cout t).
Definition get {St} : Prog St St := fun s => (s, s, []).
Definition put {St} (s' : St) : Prog St unit := fun _ => (tt, s', []).

(** A block with a local object: [p] runs on [init], and the object is
    gone when the block ends. *)
Definition scope {St L A} (init : L) (p : Prog L A) : Prog St A :=
  fun s => let '(a, _, t) := p init in (a, s, t).

Definition trace {St A} (p : Prog St A) (s : St) : list Event := (p s).2.
Definition final {St A} (p : Prog St A) (s : St) : St := (p s).1.2.

(** ** Counted loops

    [for (int i = lo; i < hi; i++)] and [for (int i = lo; i <= hi; i++)].
    The fuel is the number of iterations left, so the test is what ends
    the loop (see [for_lt_unfold] and [for_le_unfold]). *)
Fixpoint for_loop {St} (fuel : nat) (test : Z -> bool) (i : Z)
    (body : Z -> Prog St unit) : Prog St unit :=
  match fuel with
  | O => ret tt
  | S n =>
      if test i then body i >> for_loop n test (i + 1) body else ret tt
  end.

Definition for_lt {St} (lo hi : Z) (body : Z -> Prog St unit) : Prog St unit :=
  for_loop (Z.to_nat (hi - lo)) (fun i => i <? hi) lo body.

Definition for_le {St} (lo hi : Z) (body : Z -> Prog St unit) : Prog St unit :=
  for_loop (Z.to_nat (hi + 1 - lo)) (fun i => i <=? hi) lo body.

(** ** The program *)

(** Modelled from the spec: [NodeContainer] is the engine's; a node is
    its ordinal index (section 3).  The container is the number of nodes
    it holds, and [nodes.Get (i)] is the node of index [i], the argument
    converted to [uint32_t].  The source is defined only for an index
    inside the container; [Get] gives the index in any case, and what is
    proved of a call is meant for an index the container has, that is for
    a node count of at least 1. *)
Definition NodeContainer : Type := Z.
Definition Get (i : Z) : Z := to_uint32 i.

Definition endl {St} : Prog St unit := cout Endl.

Definition ConfigureLogging {St} : Prog St unit :=
  emit (LogComponentEnable "UdpEchoClientApplication") >>
  emit (LogComponentEnable "UdpEchoServerApplication").

Definition ConfigureRtsCtsThreshold {St} : Prog St unit :=
  let threshold := 1000 in
  emit (ConfigSetDefault "ns3::WifiRemoteStationManager::RtsCtsThreshold" threshold).

Definition SetupWifiNodes (nWifi : Z) : Prog NodeContainer unit :=
  do nodes <- get;
  put (nodes + to_uint32 nWifi) >>
  emit (NodesCreate (to_uint32 nWifi)) >>
  emit (SetPositionAllocator kMinX kMinY kDeltaX kDeltaY kGridWidth "RowFirst") >>
  emit (SetMobilityModel "ns3::ConstantPositionMobilityModel") >>
  do nodes <- get;
  emit (MobilityInstall nodes).

Definition SetupWifiNetwork : Prog NodeContainer unit :=
  do nodes <- get;
  emit (WifiInstall "WIFI_STANDARD_80211p" "ns3::AdhocWifiMac" nodes) >>
  emit (InternetStackInstall nodes) >>
  emit (AddressAssign "10.1.1.0" "255.255.255.0") >>
  emit PopulateRoutingTables >>
  for_lt 0 nodes (fun i =>
    let filename := "wifi-node-" +:+ pretty i +:+ ".pcap" in
    emit (EnablePcap filename i)).

Definition SetupApplications (nWifi interval maxPackets : Z) : Prog NodeContainer unit :=
  for_lt 0 nWifi (fun i =>
    emit (EchoClientInstall (Get i) (Get (Z.rem (i + 1) nWifi))
            kPort (to_uint64 maxPackets) interval kPacketSize
            kSimulationStartTime kSimulationStopTime)) >>
  emit (EchoServerInstall (Get (nWifi - 1)) kPort
          kSimulationStartTime kSimulationStopTime).

(** [stats[i]]: [std::map::operator[]] on the local copy of the map; a
    missing key is inserted with a value-initialised record. *)
Definition stats_at (i : Z) : Prog FlowStatsContainer FlowStats :=
  fun stats =>
    match stats !! to_uint32 i with
    | Some r => (r, stats, [])
    | None => (FlowStats_default, <[to_uint32 i := FlowStats_default]> stats, [])
    end.

(** [flowMonitor] stands for the statistics the monitor holds once the run
    is over and lost packets have been checked for: what
    [flowMonitor->GetFlowStats ()] returns, copied into the local [stats]. *)
Definition PrintFlowStatistics {St} (flowMonitor : FlowStatsContainer) (nWifi : Z)
    : Prog St unit :=
  emit CheckForLostPackets >>
  scope flowMonitor (
    let simulationTime := kSimulationStopTime - kSimulationStartTime in
    for_le 2 nWifi (fun i =>
      cout (Str "======= ") >> cout (Str "FlowID: ") >> cout (IntTok i) >>
      cout (Str " =======") >> endl >>
      cout (Str "TX bitrates: ") >>
      (do r <- stats_at i;
       if 0 <? txBytes r then
         do r <- stats_at i;
         cout (DblTok (ddiv (dmul (Z2double (txBytes r)) (Z2double 8))
                            (dmul (GetSeconds simulationTime) (Z2double 1000)))) >>
         cout (Str " kbit/s") >> endl
       else
         cout (Str "None") >> endl) >>
      cout (Str "RX bitrate: ") >>
      (do r <- stats_at i;
       if 0 <? rxBytes r then
         do r <- stats_at i;
         cout (DblTok (ddiv (dmul (Z2double (rxBytes r)) (Z2double 8))
                            (dmul (GetSeconds simulationTime) (Z2double 1000)))) >>
         cout (Str " kbit/s") >> endl
       else
         cout (Str "None") >> endl) >>
      cout (Str "TX packets: ") >>
      (do r <- stats_at i; cout (IntTok (txPackets r))) >> endl >>
      cout (Str "RX packets: ") >>
      (do r <- stats_at i; cout (IntTok (rxPackets r))) >> endl >>
      cout (Str "Mean delay: ") >>
      (do r <- stats_at i;
       if 0 <? rxPackets r then
         do r1 <- stats_at i;
         do r2 <- stats_at i;
         cout (TimeTok (time_div (delaySum r1) (rxPackets r2))) >> endl
       else
         cout (Str "None") >> endl) >>
      do r1 <- stats_at i;
      do r2 <- stats_at i;
      let lossRatio :=
        dmul (ddiv (Z2double (lostPackets r1)) (Z2double (txPackets r2)))
             (Z2double 100) in
      cout (Str "Packet loss ratio: ") >> cout (DblTok lossRatio) >>
      cout (Str "%") >> endl)).

Definition ExportAnimation (nWifi : Z) : Prog NodeContainer unit :=
  let animfile := "anim-" +:+ pretty nWifi +:+ "-nodes.xml" in
  emit (AnimationOpen animfile) >>
  for_lt 0 nWifi (fun i =>
    emit (SetConstantPosition (Get i) (i * 10) 0)) >>
  emit AnimationClose.

Section Engine.

(** The statistics the engine's flow monitor ends a run with; they are the
    engine's business. *)
Variable engine : Z -> Z -> Z -> FlowStatsContainer.

Definition RunSimulation {St} (nWifi interval maxPackets : Z) : Prog St unit :=
  ConfigureLogging >>
  ConfigureRtsCtsThreshold >>
  scope (0 : NodeContainer) (
    SetupWifiNodes nWifi >>
    SetupWifiNetwork >>
    emit FlowMonitorInstallAll >>
    let flowMonitor := engine nWifi interval maxPackets in
    SetupApplications nWifi interval maxPackets >>
    emit (SimulatorStop kSimulationStopTime) >>
    cout (Str "Simulation running...") >> endl >>
    emit SimulatorRun >>
    emit SimulatorDestroy >>
    emit (SerializeToXmlFile ("flowmonitor-" +:+ pretty nWifi +:+ "-nodes.xml")) >>
    ExportAnimation nWifi >>
    PrintFlowStatistics flowMonitor nWifi).

(** [maxPackets] and [interval] default to 10 and 5 and may be set on the
    command line; they are the arguments here. *)
Definition main (interval maxPackets : Z) : Prog unit Z :=
  for_le 2 30 (fun node =>
    RunSimulation node interval maxPackets >>
    cout (Str "Simulation for ") >> cout (IntTok node) >>
    cout (Str " nodes") >> endl) >>
  ret 0.

End Engine.

(** ** Observers of a trace *)

(** What was written to the console, and its lines. *)
Definition cout_tokens (tr : list Event) : list Token :=
  omap (fun e => match e with Cout t => Some t | _ => None end) tr.

Fixpoint lines (ts : list Token) : list (list Token) :=
  match ts with
  | [] => []
  | Endl :: ts' => [] :: lines ts'
  | t :: ts' =>
      match lines ts' with
      | [] => [[t]]
      | l :: ls => (t :: l) :: ls
      end
  end.

Definition is_endl (t : Token) : bool :=
  match t with Endl => true | _ => false end.

(** The flow identifiers of the report, from its header lines. *)
Definition header_id (l : list Token) : option Z :=
  match l with
  | [Str a; Str b; IntTok i; Str c] =>
      if String.eqb a "======= " && String.eqb b "FlowID: " && String.eqb c " ======="
      then Some i else None
  | _ => None
  end.

Definition reported_ids (ls : list (list Token)) : list Z := omap header_id ls.

(** The console lines of the flow report for statistics [stats] and [nWifi]
    nodes. *)
Definition report (stats : FlowStatsContainer) (nWifi : Z) : list (list Token) :=
  lines (cout_tokens (trace (PrintFlowStatistics stats nWifi) tt)).

(** The [k]-th line (from 0) of the seven that flow [i] gets. *)
Definition flow_line (ls : list (list Token)) (i : Z) (k : nat) : option (list Token) :=
  ls !! (7 * Z.to_nat (i - 2) + k)%nat.

(** ** The reduction, in the words of the specification

    The three optional metrics and the loss ratio of a flow record, stated
    as the specification does and compared with the report further down. *)

Definition spec_bitrateKbps (bytes durationSeconds : Z) : option double :=
  if 0 <? bytes
  then Some (ddiv (dmul (Z2double bytes) (Z2double 8))
                  (dmul (Z2double durationSeconds) (Z2double 1000)))
  else None.

Definition spec_meanDelay (r : FlowStats) : option Time :=
  if 0 <? rxPackets r then Some (time_div (delaySum r) (rxPackets r)) else None.

Definition spec_lossRatioPercent (r : FlowStats) : double :=
  dmul (ddiv (Z2double (lostPackets r)) (Z2double (txPackets r))) (Z2double 100).

(** How the report shows them. *)
Definition show_rate (v : option double) : list Token :=
  match v with
  | Some d => [DblTok d; Str " kbit/s"]
  | None => [Str "None"]
  end.

Definition show_delay (v : option Time) : list Token :=
  match v with
  | Some t => [TimeTok t]
  | None => [Str "None"]
  end.

(** The record [stats[i]] yields, present or not. *)
Definition record_of (stats : FlowStatsContainer) (i : Z) : FlowStats :=
  default FlowStats_default (stats !! to_uint32 i).

(** The map after [stats[i]]. *)
Definition touch (i : Z) (stats : FlowStatsContainer) : FlowStatsContainer :=
  (stats_at i stats).1.2.

(** The seven lines of one flow. *)
Definition flow_lines (i : Z) (r : FlowStats) : list (list Token) :=
  [ [Str "======= "; Str "FlowID: "; IntTok i; Str " ======="];
    Str "TX bitrates: " :: show_rate (spec_bitrateKbps (txBytes r) 24);
    Str "RX bitrate: " :: show_rate (spec_bitrateKbps (rxBytes r) 24);
    [Str "TX packets: "; IntTok (txPackets r)];
    [Str "RX packets: "; IntTok (rxPackets r)];
    Str "Mean delay: " :: show_delay (spec_meanDelay r);
    [Str "Packet loss ratio: "; DblTok (spec_lossRatioPercent r); Str "%"] ].

(** The nearest integer to [d * 10 ^ k], for a finite positive [d]: what
    printing [d] with [k] decimals shows. *)
Definition decimals (k : Z) (d : double) : option Z :=
  match d with
  | S754_finite false m e =>
      let n := Z.pos m * 10 ^ k in
      if 0 <=? e then Some (n * 2 ^ e)
      else Some ((2 * n + 2 ^ (- e)) / (2 * 2 ^ (- e)))
  | _ => None
  end.

(** The calls of [SetupApplications], by name. *)
Definition client_event (nWifi interval maxPackets i : Z) : Event :=
  EchoClientInstall (Get i) (Get (Z.rem (i + 1) nWifi)) kPort
    (to_uint64 maxPackets) interval kPacketSize
    kSimulationStartTime kSimulationStopTime.

Definition server_event (nWifi : Z) : Event :=
  EchoServerInstall (Get (nWifi - 1)) kPort kSimulationStartTime kSimulationStopTime.

(** ** Observers of the engine calls *)

(** Clients installed, as (node, node whose address is targeted). *)
Definition clients (tr : list Event) : list (Z * Z) :=
  omap (fun e => match e with
                 | EchoClientInstall node remote _ _ _ _ _ _ => Some (node, remote)
                 | _ => None
                 end) tr.

(** Sinks installed, as (node, port). *)
Definition sinks (tr : list Event) : list (Z * Z) :=
  omap (fun e => match e with
                 | EchoServerInstall node port _ _ => Some (node, port)
                 | _ => None
                 end) tr.

(** The files a run serialises its results to. *)
Definition artifacts (tr : list Event) : list string :=
  omap (fun e => match e with
                 | SerializeToXmlFile f => Some f
                 | AnimationOpen f => Some f
                 | _ => None
                 end) tr.

(** The packet captures enabled, by file name. *)
Definition captures (tr : list Event) : list string :=
  omap (fun e => match e with EnablePcap f _ => Some f | _ => None end) tr.

(** Positions given to the animation, as (node, (x, y)). *)
Definition animation_positions (tr : list Event) : list (Z * (Z * Z)) :=
  omap (fun e => match e with
                 | SetConstantPosition node x y => Some (node, (x, y))
                 | _ => None
                 end) tr.

(** The life of the engine's simulation state: nodes created, the
    scheduler run, the simulator destroyed. *)
Definition is_lifecycle (e : Event) : bool :=
  match e with
  | NodesCreate _ | SimulatorRun | SimulatorDestroy => true
  | _ => false
  end.

Definition lifecycle (tr : list Event) : list Event :=
  omap (fun e => if is_lifecycle e then Some e else None) tr.

(** Console output and the monitor's own check: all the reporting does. *)
Definition is_report_event (e : Event) : bool :=
  match e with
  | Cout _ | CheckForLostPackets => true
  | _ => false
  end.

(** Node counts of the runs of a trace. *)
Definition runs (tr : list Event) : list Z :=
  omap (fun e => match e with NodesCreate n => Some n | _ => None end) tr.

Definition flowmonitor_file (nWifi : Z) : string :=
  "flowmonitor-" +:+ pretty nWifi +:+ "-nodes.xml".
Definition anim_file (nWifi : Z) : string :=
  "anim-" +:+ pretty nWifi +:+ "-nodes.xml".
Definition pcap_file (i : Z) : string :=
  "wifi-node-" +:+ pretty i +:+ ".pcap".

(** ** The grid of the topology *)

(** Modelled from the spec: the row-first grid position allocator belongs
    to the engine and is not in src/; the program only hands it the grid
    constants.  Section 4.1 of the specification: node [i] is placed at
    column [i mod gridWidth], row [i div gridWidth];
    x = originX + column * dx, y = originY + row * dy. *)
Definition place (i gridWidth originX originY dx dy : Z) : Z * Z :=
  (originX + (i mod gridWidth) * dx, originY + (i / gridWidth) * dy).

(** The position the installed topology gives node [i]. *)
Definition topology_position (i : Z) : Z * Z :=
  place i kGridWidth kMinX kMinY kDeltaX kDeltaY.

(** ** The traffic pattern, in the words of the specification *)

Inductive BuildError : Type := InvalidTopologySize.

Record TrafficAssignment : Type := mkTraffic {
  dest : list (Z * Z);
  sink : Z
}.

(** Section 4.2: ring addressing, one sink at N - 1, and N < 2 rejected. *)
Definition spec_build (N : Z) : BuildError + TrafficAssignment :=
  if N <? 2 then inl InvalidTopologySize
  else inr (mkTraffic (map (fun i => (i, (i + 1) mod N)) (seqZ 0 N)) (N - 1)).

(** The calls into the engine, the console left out. *)
Definition engine_calls (tr : list Event) : list Event :=
  omap (fun e => match e with Cout _ => None | _ => Some e end) tr.

(** * Reasoning about programs *)

Lemma bind_run {St A B} (m : Prog St A) (k : A -> Prog St B) s a s1 t1 b s2 t2 :
  m s = (a, s1, t1) -> k a s1 = (b, s2, t2) -> bind m k s = (b, s2, t1 ++ t2).
Proof. intros Hm Hk. unfold bind. now rewrite Hm, Hk. Qed.

Lemma for_lt_unfold {St} lo hi (body : Z -> Prog St unit) :
  for_lt lo hi body =
  if lo <? hi then body lo >> for_lt (lo + 1) hi body else ret tt.
Proof.
  unfold for_lt. destruct (lo <? hi) eqn:E.
  - apply Z.ltb_lt in E.
    replace (Z.to_nat (hi - lo)) with (S (Z.to_nat (hi - (lo + 1)))) by lia.
    simpl. apply Z.ltb_lt in E. now rewrite E.
  - apply Z.ltb_ge in E.
    replace (Z.to_nat (hi - lo)) with O by lia. reflexivity.
Qed.

Lemma for_le_unfold {St} lo hi (body : Z -> Prog St unit) :
  for_le lo hi body =
  if lo <=? hi then body lo >> for_le (lo + 1) hi body else ret tt.
Proof.
  unfold for_le. destruct (lo <=? hi) eqn:E.
  - apply Z.leb_le in E.
    replace (Z.to_nat (hi + 1 - lo)) with (S (Z.to_nat (hi + 1 - (lo + 1)))) by lia.
    simpl. apply Z.leb_le in E. now rewrite E.
  - apply Z.leb_gt in E.
    replace (Z.to_nat (hi + 1 - lo)) with O by lia. reflexivity.
Qed.

Section Loops.
Context {St : Type} (body : Z -> Prog St unit).

(** A body that leaves the state alone. *)
Lemma for_loop_pure (T : Z -> list Event) test :
  (forall i s, body i s = (tt, s, T i)) ->
  forall fuel lo s,
    (forall k, lo <= k < lo + Z.of_nat fuel -> test k = true) ->
    for_loop fuel test lo body s = (tt, s, flat_map T (seqZ lo (Z.of_nat fuel))).
Proof.
  intros Hb. induction fuel as [|n IH]; intros lo s Ht.
  - reflexivity.
  - simpl for_loop. rewrite Ht by lia.
    rewrite seqZ_cons by lia. simpl flat_map.
    eapply bind_run; [apply Hb|].
    replace (Z.pred (Z.of_nat (S n))) with (Z.of_nat n) by lia.
    apply IH. intros k Hk. apply Ht. lia.
Qed.

Lemma for_lt_pure (T : Z -> list Event) :
  (forall i s, body i s = (tt, s, T i)) ->
  forall lo hi s, for_lt lo hi body s = (tt, s, flat_map T (seqZ lo (hi - lo))).
Proof.
  intros Hb lo hi s. unfold for_lt.
  rewrite (for_loop_pure T _ Hb) by (intros k Hk; apply Z.ltb_lt; lia).
  destruct (Z.le_gt_cases lo hi).
  - now rewrite Z2Nat.id by lia.
  - replace (Z.to_nat (hi - lo)) with O by lia.
    now rewrite (seqZ_nil lo (hi - lo)) by lia.
Qed.

Lemma for_le_pure (T : Z -> list Event) :
  (forall i s, body i s = (tt, s, T i)) ->
  forall lo hi s, for_le lo hi body s = (tt, s, flat_map T (seqZ lo (hi + 1 - lo))).
Proof.
  intros Hb lo hi s. unfold for_le.
  rewrite (for_loop_pure T _ Hb) by (intros k Hk; apply Z.leb_le; lia).
  destruct (Z.le_gt_cases lo (hi + 1)).
  - now rewrite Z2Nat.id by lia.
  - replace (Z.to_nat (hi + 1 - lo)) with O by lia.
    now rewrite (seqZ_nil lo (hi + 1 - lo)) by lia.
Qed.

(** A body that changes the state in a way later iterations do not see. *)
Lemma for_loop_stable (g : Z -> St -> St) (T : Z -> St -> list Event) test :
  (forall i s, body i s = (tt, g i s, T i s)) ->
  (forall i j s, T j (g i s) = T j s) ->
  forall fuel lo s,
    (forall k, lo <= k < lo + Z.of_nat fuel -> test k = true) ->
    trace (for_loop fuel test lo body) s
    = flat_map (fun i => T i s) (seqZ lo (Z.of_nat fuel)).
Proof.
  intros Hb Hg. induction fuel as [|n IH]; intros lo s Ht.
  - reflexivity.
  - unfold trace in *. simpl for_loop. rewrite Ht by lia.
    rewrite seqZ_cons by lia. simpl flat_map.
    unfold bind. rewrite Hb.
    replace (Z.pred (Z.of_nat (S n))) with (Z.of_nat n) by lia.
    specialize (IH (Z.succ lo) (g lo s)).
    replace (lo + 1) with (Z.succ lo) by lia.
    destruct (for_loop n test (Z.succ lo) body (g lo s)) as [[u s'] t'].
    simpl in *. rewrite IH by (intros k Hk; apply Ht; lia).
    f_equal. apply flat_map_ext. intros j. apply Hg.
Qed.

Lemma for_le_stable (g : Z -> St -> St) (T : Z -> St -> list Event) :
  (forall i s, body i s = (tt, g i s, T i s)) ->
  (forall i j s, T j (g i s) = T j s) ->
  forall lo hi s,
    trace (for_le lo hi body) s = flat_map (fun i => T i s) (seqZ lo (hi + 1 - lo)).
Proof.
  intros Hb Hg lo hi s. unfold for_le.
  rewrite (for_loop_stable g T _ Hb Hg) by (intros k Hk; apply Z.leb_le; lia).
  destruct (Z.le_gt_cases lo (hi + 1)).
  - now rewrite Z2Nat.id by lia.
  - replace (Z.to_nat (hi + 1 - lo)) with O by lia.
    now rewrite (seqZ_nil lo (hi + 1 - lo)) by lia.
Qed.

End Loops.

(** ** Traces of the combinators *)

Lemma trace_bind {St A B} (m : Prog St A) (k : A -> Prog St B) s :
  trace (bind m k) s = trace m s ++ trace (k (m s).1.1) (final m s).
Proof.
  unfold trace, final, bind. destruct (m s) as [[a s1] t1]. simpl.
  now destruct (k a s1) as [[b s2] t2].
Qed.

Lemma trace_scope {St L A} (init : L) (p : Prog L A) (s : St) :
  trace (scope init p) s = trace p init.
Proof. unfold trace, scope. now destruct (p init) as [[a l] t]. Qed.

Lemma cout_tokens_app t1 t2 :
  cout_tokens (t1 ++ t2) = cout_tokens t1 ++ cout_tokens t2.
Proof. apply omap_app. Qed.

Lemma cout_tokens_Cout ts : cout_tokens (map Cout ts) = ts.
Proof. induction ts as [|t ts IH]; simpl; [reflexivity | now f_equal]. Qed.

Lemma cout_tokens_flat_map {A} (f : A -> list Token) l :
  cout_tokens (flat_map (fun x => map Cout (f x)) l) = flat_map f l.
Proof.
  induction l as [|x l IH]; simpl; [reflexivity|].
  now rewrite cout_tokens_app, cout_tokens_Cout, IH.
Qed.

(** ** Lines *)

Lemma lines_app_endl l rest :
  Forall (fun t => is_endl t = false) l ->
  lines (l ++ Endl :: rest) = l :: lines rest.
Proof.
  induction 1 as [|t l Ht _ IH]; simpl; [reflexivity|].
  rewrite IH. now destruct t.
Qed.

Lemma lines_flat_map (ls : list (list Token)) :
  Forall (Forall (fun t => is_endl t = false)) ls ->
  lines (flat_map (fun l => l ++ [Endl]) ls) = ls.
Proof.
  induction 1 as [|l ls Hl _ IH]; simpl; [reflexivity|].
  rewrite <- app_assoc. simpl. rewrite lines_app_endl by assumption.
  now rewrite IH.
Qed.

Lemma flat_map_flat_map {A B C} (f : A -> list B) (g : B -> list C) l :
  flat_map g (flat_map f l) = flat_map (fun x => flat_map g (f x)) l.
Proof.
  induction l as [|x l IH]; simpl; [reflexivity|].
  now rewrite flat_map_app, IH.
Qed.

Lemma flow_lines_no_endl i r :
  Forall (Forall (fun t => is_endl t = false)) (flow_lines i r).
Proof.
  unfold flow_lines, spec_bitrateKbps, spec_meanDelay.
  destruct (0 <? txBytes r), (0 <? rxBytes r), (0 <? rxPackets r);
    repeat constructor.
Qed.

(** ** The flow map *)

Lemma stats_at_run i stats :
  stats_at i stats = (record_of stats i, touch i stats, []).
Proof.
  unfold touch, record_of, stats_at. now destruct (stats !! to_uint32 i).
Qed.

Lemma record_of_touch i j stats :
  record_of (touch i stats) j = record_of stats j.
Proof.
  unfold touch, record_of, stats_at.
  destruct (stats !! to_uint32 i) eqn:E; simpl; [reflexivity|].
  destruct (decide (to_uint32 i = to_uint32 j)) as [<-|Hne].
  - now rewrite lookup_insert_eq, E.
  - now rewrite lookup_insert_ne.
Qed.

Lemma touch_touch i stats : touch i (touch i stats) = touch i stats.
Proof.
  unfold touch, stats_at.
  destruct (stats !! to_uint32 i) eqn:E; simpl.
  - now rewrite E.
  - now rewrite lookup_insert_eq.
Qed.

(** ** The reporting loop *)

Lemma GetSeconds_simulationTime :
  GetSeconds (kSimulationStopTime - kSimulationStartTime) = Z2double 24.
Proof. vm_compute. reflexivity. Qed.

Lemma stats_at_again i stats :
  stats_at i (touch i stats) = (record_of stats i, touch i stats, []).
Proof. now rewrite stats_at_run, record_of_touch, touch_touch. Qed.

Lemma emit_run {St} e (s : St) : emit e s = (tt, s, [e]).
Proof. reflexivity. Qed.

Ltac run_step :=
  lazymatch goal with
  | |- bind _ _ _ = _ =>
      eapply bind_run; cbv beta
  | |- stats_at _ _ = _ => first [ apply stats_at_again | apply stats_at_run ]
  | H : ?c = _ |- (if ?c then _ else _) _ = _ => rewrite H
  | |- emit _ _ = _ => apply emit_run
  | |- cout _ _ = _ => apply emit_run
  | |- endl _ = _ => apply emit_run
  end.

Lemma PrintFlowStatistics_trace {St} stats nWifi (s : St) :
  trace (PrintFlowStatistics stats nWifi) s
  = CheckForLostPackets ::
    flat_map (fun i => map Cout (flat_map (fun l => l ++ [Endl])
                                   (flow_lines i (record_of stats i))))
             (seqZ 2 (nWifi - 1)).
Proof.
  unfold PrintFlowStatistics. rewrite trace_bind, trace_scope.
  change (trace (emit CheckForLostPackets) s) with [CheckForLostPackets].
  cbn [app]. f_equal.
  replace (nWifi - 1) with (nWifi + 1 - 2) by lia.
  apply for_le_stable with (g := touch)
    (T := fun i m => map Cout (flat_map (fun l => l ++ [Endl])
                                   (flow_lines i (record_of m i)))).
  2:{ intros i j m. now rewrite record_of_touch. }
  intros i m.
  rewrite GetSeconds_simulationTime.
  unfold flow_lines, spec_bitrateKbps, spec_meanDelay, spec_lossRatioPercent.
  destruct (0 <? txBytes (record_of m i)) eqn:Etx,
           (0 <? rxBytes (record_of m i)) eqn:Erx,
           (0 <? rxPackets (record_of m i)) eqn:Erp;
    (etransitivity; [ repeat run_step | reflexivity ]).
Qed.

(** The report in closed form: seven lines for each of the identifiers
    2, 3, ..., [nWifi], from the record [stats[i]] yields. *)
Lemma report_closed stats nWifi :
  report stats nWifi
  = flat_map (fun i => flow_lines i (record_of stats i)) (seqZ 2 (nWifi - 1)).
Proof.
  unfold report. rewrite PrintFlowStatistics_trace.
  change (cout_tokens (CheckForLostPackets :: ?t)) with (cout_tokens t).
  rewrite (cout_tokens_flat_map
             (fun i => flat_map (fun l => l ++ [Endl])
                         (flow_lines i (record_of stats i)))).
  rewrite <- flat_map_flat_map.
  apply lines_flat_map.
  induction (seqZ 2 (nWifi - 1)) as [|i ids IH]; [constructor|].
  cbn [flat_map]. apply Forall_app. split; [apply flow_lines_no_endl | exact IH].
Qed.

Lemma flat_map_lookup_7 {A B} (f : A -> list B) (l : list A) (n k : nat) x :
  (forall a, length (f a) = 7%nat) ->
  l !! n = Some x -> (k < 7)%nat ->
  flat_map f l !! (7 * n + k)%nat = f x !! k.
Proof.
  intros Hlen. revert n. induction l as [|a l IH]; intros n Hn Hk.
  - discriminate.
  - simpl flat_map. destruct n as [|n].
    + injection Hn as ->. rewrite Nat.mul_0_r. simpl.
      apply lookup_app_l. rewrite Hlen. exact Hk.
    + rewrite lookup_app_r by (rewrite Hlen; lia).
      rewrite Hlen.
      replace (7 * S n + k - 7)%nat with (7 * n + k)%nat by lia.
      now apply IH.
Qed.

Lemma flow_line_closed stats nWifi i k :
  2 <= i <= nWifi -> (k < 7)%nat ->
  flow_line (report stats nWifi) i k = flow_lines i (record_of stats i) !! k.
Proof.
  intros Hi Hk. unfold flow_line. rewrite report_closed.
  apply (flat_map_lookup_7 (fun i => flow_lines i (record_of stats i)));
    [reflexivity | | exact Hk].
  rewrite lookup_seqZ. split; [f_equal|]; lia.
Qed.

Lemma reported_ids_closed stats nWifi :
  reported_ids (report stats nWifi) = seqZ 2 (nWifi - 1).
Proof.
  rewrite report_closed. unfold reported_ids.
  induction (seqZ 2 (nWifi - 1)) as [|i ids IH]; [reflexivity|].
  change (i :: ids) with ([i] ++ ids). rewrite flat_map_app, omap_app, IH.
  f_equal. cbn [flat_map]. rewrite app_nil_r.
  unfold flow_lines, spec_bitrateKbps, spec_meanDelay.
  destruct (0 <? txBytes (record_of stats i)),
           (0 <? rxBytes (record_of stats i)),
           (0 <? rxPackets (record_of stats i)); reflexivity.
Qed.

(** ** Conversion of integers to [double] *)

Lemma digits2_pos_size p : digits2_pos p = Pos.size p.
Proof. induction p as [p IH|p IH|]; simpl; now rewrite ?IH. Qed.

Lemma digits2_pos_bound p n :
  0 <= n -> Z.pos p < 2 ^ n -> Z.pos (digits2_pos p) <= n.
Proof.
  intros Hn Hp. rewrite digits2_pos_size.
  pose proof (Pos.size_le p) as Hle.
  assert (2 ^ Z.pos (Pos.size p) <= 2 * Z.pos p) as H2.
  { rewrite <- Pos2Z.inj_pow. apply (Pos2Z.pos_le_pos _ (p~0)). exact Hle. }
  destruct (Z.le_gt_cases (Z.pos (Pos.size p)) n) as [|Hgt]; [assumption|].
  exfalso.
  assert (2 ^ (n + 1) <= 2 ^ Z.pos (Pos.size p)) by (apply Z.pow_le_mono_r; lia).
  rewrite Z.pow_add_r in * by lia. lia.
Qed.

Lemma digits2_pos_iter_xO p k :
  Z.pos (digits2_pos (Pos.iter xO p k)) = Z.pos (digits2_pos p) + Z.pos k.
Proof.
  induction k as [|k IH] using Pos.peano_ind.
  - simpl. lia.
  - rewrite Pos.iter_succ. simpl digits2_pos. lia.
Qed.

(** An integer from 1 to 2^52 - 1 converts to a finite, positive
    [double]: its bits shifted up to 53 digits. *)
Lemma Z2double_pos p :
  Z.pos p < 2 ^ 52 ->
  Z2double (Z.pos p)
  = S754_finite false
      (Pos.iter xO p (Z.to_pos (53 - Z.pos (digits2_pos p))))
      (Z.pos (digits2_pos p) - 53).
Proof.
  intros Hp.
  pose proof (digits2_pos_bound p 52 ltac:(lia) Hp) as Hd.
  unfold Z2double, binary_normalize, binary_round.
  replace (fexp 53 1024 (Z.pos (digits2_pos p) + 0))
    with (Z.pos (digits2_pos p) - 53) by (unfold fexp, emin; lia).
  unfold shl_align.
  destruct (Z.pos (digits2_pos p) - 53 - 0) as [|k|k] eqn:Ek; try lia.
  replace (Z.to_pos (53 - Z.pos (digits2_pos p))) with k by lia.
  unfold binary_round_aux, shr_fexp. cbn [Zdigits2 shr_record_of_loc].
  rewrite digits2_pos_iter_xO.
  replace (fexp 53 1024 (Z.pos (digits2_pos p) + Z.pos k + (Z.pos (digits2_pos p) - 53))
           - (Z.pos (digits2_pos p) - 53)) with 0
    by (unfold fexp, emin; lia).
  cbn [shr shr_m loc_of_shr_record round_nearest_even Zdigits2 shr_record_of_loc].
  rewrite digits2_pos_iter_xO.
  replace (fexp 53 1024 (Z.pos (digits2_pos p) + Z.pos k + (Z.pos (digits2_pos p) - 53))
           - (Z.pos (digits2_pos p) - 53)) with 0
    by (unfold fexp, emin; lia).
  cbn [shr shr_m].
  replace (Z.pos (digits2_pos p) - 53 <=? 1024 - 53) with true
    by (symmetry; apply Z.leb_le; lia).
  reflexivity.
Qed.

Lemma Z2double_0 : Z2double 0 = S754_zero false.
Proof. reflexivity. Qed.

Lemma Z2double_100 : Z2double 100 = S754_finite false 7036874417766400 (-46).
Proof. vm_compute. reflexivity. Qed.

(** ** Closed forms of the set-up and export functions *)

Lemma flat_map_singleton {A B} (f : A -> B) l :
  flat_map (fun x => [f x]) l = map f l.
Proof. induction l as [|x l IH]; simpl; [reflexivity | now rewrite IH]. Qed.

Lemma for_lt_emit {St} (f : Z -> Event) lo hi (s : St) :
  for_lt lo hi (fun i => emit (f i)) s = (tt, s, map f (seqZ lo (hi - lo))).
Proof.
  rewrite (for_lt_pure _ (fun i => [f i])) by reflexivity.
  now rewrite flat_map_singleton.
Qed.

Lemma for_lt_emit0 {St} (f : Z -> Event) hi (s : St) :
  for_lt 0 hi (fun i => emit (f i)) s = (tt, s, map f (seqZ 0 hi)).
Proof. now rewrite for_lt_emit, Z.sub_0_r. Qed.

Ltac run_emit :=
  lazymatch goal with
  | |- bind _ _ _ = _ => eapply bind_run; cbv beta
  | |- for_lt 0 _ _ _ = _ => apply for_lt_emit0
  | |- emit _ _ = _ => apply emit_run
  | |- get _ = _ => reflexivity
  end.

Ltac run_prog := etransitivity; [ repeat run_emit | reflexivity ].

Lemma SetupApplications_run nWifi interval maxPackets nodes :
  SetupApplications nWifi interval maxPackets nodes
  = (tt, nodes,
     map (client_event nWifi interval maxPackets) (seqZ 0 nWifi)
     ++ [server_event nWifi]).
Proof. unfold SetupApplications. run_prog. Qed.

Lemma ExportAnimation_run nWifi nodes :
  ExportAnimation nWifi nodes
  = (tt, nodes,
     AnimationOpen (anim_file nWifi)
     :: map (fun i => SetConstantPosition (Get i) (i * 10) 0) (seqZ 0 nWifi)
     ++ [AnimationClose]).
Proof. unfold ExportAnimation. run_prog. Qed.

Lemma SetupWifiNodes_run nWifi :
  SetupWifiNodes nWifi 0
  = (tt, to_uint32 nWifi,
     [NodesCreate (to_uint32 nWifi);
      SetPositionAllocator kMinX kMinY kDeltaX kDeltaY kGridWidth "RowFirst";
      SetMobilityModel "ns3::ConstantPositionMobilityModel";
      MobilityInstall (to_uint32 nWifi)]).
Proof. reflexivity. Qed.

Lemma SetupWifiNetwork_run nodes :
  SetupWifiNetwork nodes
  = (tt, nodes,
     [WifiInstall "WIFI_STANDARD_80211p" "ns3::AdhocWifiMac" nodes; InternetStackInstall nodes;
      AddressAssign "10.1.1.0" "255.255.255.0"; PopulateRoutingTables]
     ++ map (fun i => EnablePcap (pcap_file i) i) (seqZ 0 nodes)).
Proof. unfold SetupWifiNetwork. run_prog. Qed.

Lemma PrintFlowStatistics_run {St} stats nWifi (s : St) :
  PrintFlowStatistics stats nWifi s
  = (tt, s, trace (PrintFlowStatistics stats nWifi) s).
Proof.
  unfold trace, PrintFlowStatistics, bind, scope, emit.
  now destruct (for_le 2 nWifi _ stats) as [[[] m] t].
Qed.

(** ** One run *)

Lemma scope_run {St L A} (init : L) (p : Prog L A) (s : St) a l t :
  p init = (a, l, t) -> scope init p s = (a, s, t).
Proof. intros H. unfold scope. now rewrite H. Qed.

Ltac run_call :=
  lazymatch goal with
  | |- bind _ _ _ = _ => eapply bind_run; cbv beta zeta
  | |- scope _ _ _ = _ => eapply scope_run
  | |- SetupWifiNodes _ _ = _ => apply SetupWifiNodes_run
  | |- SetupWifiNetwork _ = _ => apply SetupWifiNetwork_run
  | |- SetupApplications _ _ _ _ = _ => apply SetupApplications_run
  | |- ExportAnimation _ _ = _ => apply ExportAnimation_run
  | |- PrintFlowStatistics _ _ _ = _ => apply PrintFlowStatistics_run
  | |- ConfigureLogging _ = _ => reflexivity
  | |- ConfigureRtsCtsThreshold _ = _ => reflexivity
  | |- emit _ _ = _ => apply emit_run
  | |- cout _ _ = _ => apply emit_run
  | |- endl _ = _ => apply emit_run
  end.

Lemma RunSimulation_run {St} engine nWifi interval maxPackets (s : St) :
  RunSimulation engine nWifi interval maxPackets s
  = (tt, s,
     [LogComponentEnable "UdpEchoClientApplication";
      LogComponentEnable "UdpEchoServerApplication";
      ConfigSetDefault "ns3::WifiRemoteStationManager::RtsCtsThreshold" 1000;
      NodesCreate (to_uint32 nWifi);
      SetPositionAllocator kMinX kMinY kDeltaX kDeltaY kGridWidth "RowFirst";
      SetMobilityModel "ns3::ConstantPositionMobilityModel";
      MobilityInstall (to_uint32 nWifi);
      WifiInstall "WIFI_STANDARD_80211p" "ns3::AdhocWifiMac" (to_uint32 nWifi);
      InternetStackInstall (to_uint32 nWifi);
      AddressAssign "10.1.1.0" "255.255.255.0"; PopulateRoutingTables]
     ++ map (fun i => EnablePcap (pcap_file i) i) (seqZ 0 (to_uint32 nWifi))
     ++ [FlowMonitorInstallAll]
     ++ map (client_event nWifi interval maxPackets) (seqZ 0 nWifi)
     ++ [server_event nWifi;
         SimulatorStop kSimulationStopTime;
         Cout (Str "Simulation running..."); Cout Endl;
         SimulatorRun; SimulatorDestroy;
         SerializeToXmlFile (flowmonitor_file nWifi);
         AnimationOpen (anim_file nWifi)]
     ++ map (fun i => SetConstantPosition (Get i) (i * 10) 0) (seqZ 0 nWifi)
     ++ [AnimationClose]
     ++ trace (PrintFlowStatistics (St:=NodeContainer)
                 (engine nWifi interval maxPackets) nWifi) (to_uint32 nWifi)).
Proof.
  unfold RunSimulation.
  etransitivity; [repeat run_call|].
  f_equal. cbn [app]. rewrite <- !app_assoc. cbn [app]. reflexivity.
Qed.

(** ** Observers on closed forms *)

Section Observers.
Context {A B : Type} (f : Event -> option B).

Lemma omap_map_none (g : A -> Event) l :
  (forall x, f (g x) = None) -> omap f (map g l) = [].
Proof.
  intros H. induction l as [|x l IH]; [reflexivity|].
  cbn. rewrite H. exact IH.
Qed.

Lemma omap_map_some (g : A -> Event) (h : A -> B) l :
  (forall x, f (g x) = Some (h x)) -> omap f (map g l) = map h l.
Proof.
  intros H. induction l as [|x l IH]; [reflexivity|].
  cbn. rewrite H. f_equal. exact IH.
Qed.

Lemma omap_flat_map (g : A -> list Event) l :
  omap f (flat_map g l) = flat_map (fun x => omap f (g x)) l.
Proof.
  induction l as [|x l IH]; [reflexivity|].
  cbn [flat_map]. now rewrite omap_app, IH.
Qed.

Lemma omap_report_events tr :
  (forall e, is_report_event e = true -> f e = None) ->
  Forall (fun e => is_report_event e = true) tr -> omap f tr = [].
Proof.
  intros H. induction 1 as [|e tr He _ IH]; [reflexivity|].
  cbn. rewrite (H e He). exact IH.
Qed.

End Observers.

Lemma PrintFlowStatistics_report_events {St} stats nWifi (s : St) :
  Forall (fun e => is_report_event e = true)
         (trace (PrintFlowStatistics stats nWifi) s).
Proof.
  rewrite PrintFlowStatistics_trace. constructor; [reflexivity|].
  induction (seqZ 2 (nWifi - 1)) as [|i ids IH]; [constructor|].
  cbn [flat_map]. apply Forall_app. split; [|exact IH].
  generalize (flat_map (fun l => l ++ [Endl]) (flow_lines i (record_of stats i))).
  intros ts. induction ts as [|t ts IHt]; constructor; [reflexivity | exact IHt].
Qed.

Ltac observe_run :=
  unfold trace; rewrite RunSimulation_run; cbn [snd];
  rewrite !omap_app;
  rewrite (omap_report_events _ (trace _ _))
    by (first [ now intros [] | apply PrintFlowStatistics_report_events ]).

Lemma lifecycle_run {St} engine nWifi interval maxPackets (s : St) :
  lifecycle (trace (RunSimulation engine nWifi interval maxPackets) s)
  = [NodesCreate (to_uint32 nWifi); SimulatorRun; SimulatorDestroy].
Proof.
  unfold lifecycle. observe_run.
  rewrite !omap_map_none by reflexivity. reflexivity.
Qed.

Lemma runs_run {St} engine nWifi interval maxPackets (s : St) :
  runs (trace (RunSimulation engine nWifi interval maxPackets) s)
  = [to_uint32 nWifi].
Proof.
  unfold runs. observe_run.
  rewrite !omap_map_none by reflexivity. reflexivity.
Qed.

Lemma artifacts_run {St} engine nWifi interval maxPackets (s : St) :
  artifacts (trace (RunSimulation engine nWifi interval maxPackets) s)
  = [flowmonitor_file nWifi; anim_file nWifi].
Proof.
  unfold artifacts. observe_run.
  rewrite !omap_map_none by reflexivity. reflexivity.
Qed.

Lemma captures_run {St} engine nWifi interval maxPackets (s : St) :
  captures (trace (RunSimulation engine nWifi interval maxPackets) s)
  = map pcap_file (seqZ 0 (to_uint32 nWifi)).
Proof.
  unfold captures. observe_run.
  rewrite (omap_map_some _ _ pcap_file) by reflexivity.
  rewrite !omap_map_none by reflexivity. cbn [omap app].
  simpl. now rewrite app_nil_r.
Qed.

(** ** The sweep *)

Lemma main_trace engine interval maxPackets :
  trace (main engine interval maxPackets) tt
  = flat_map (fun node =>
      trace (RunSimulation engine node interval maxPackets) tt
      ++ [Cout (Str "Simulation for "); Cout (IntTok node);
          Cout (Str " nodes"); Cout Endl])
      (seqZ 2 29).
Proof.
  unfold main. rewrite trace_bind.
  change (trace (ret 0) _) with (@nil Event). rewrite app_nil_r.
  unfold trace at 1.
  rewrite (for_le_pure _ (fun node =>
      trace (RunSimulation engine node interval maxPackets) tt
      ++ [Cout (Str "Simulation for "); Cout (IntTok node);
          Cout (Str " nodes"); Cout Endl])); [reflexivity|].
  intros node []. unfold trace. rewrite RunSimulation_run. cbn [snd].
  etransitivity.
  { eapply bind_run; [apply RunSimulation_run|]. cbv beta. repeat run_call. }
  reflexivity.
Qed.

Lemma main_returns engine interval maxPackets :
  (main engine interval maxPackets tt).1.1 = 0.
Proof.
  unfold main, bind.
  destruct (for_le 2 30 _ tt) as [[u s] t]. reflexivity.
Qed.

Lemma runs_main engine interval maxPackets :
  runs (trace (main engine interval maxPackets) tt) = seqZ 2 29.
Proof.
  rewrite main_trace. unfold runs. rewrite omap_flat_map.
  erewrite flat_map_ext.
  2:{ intros node. rewrite omap_app. fold (runs (trace (RunSimulation engine node interval maxPackets) tt)).
      rewrite runs_run. cbn [omap list_omap app]. reflexivity. }
  vm_compute. reflexivity.
Qed.

Lemma lifecycle_main engine interval maxPackets :
  lifecycle (trace (main engine interval maxPackets) tt)
  = flat_map (fun node => [NodesCreate node; SimulatorRun; SimulatorDestroy])
             (seqZ 2 29).
Proof.
  rewrite main_trace. unfold lifecycle. rewrite omap_flat_map.
  erewrite flat_map_ext.
  2:{ intros node. rewrite omap_app.
      fold (lifecycle (trace (RunSimulation engine node interval maxPackets) tt)).
      rewrite lifecycle_run. cbn [omap list_omap app]. reflexivity. }
  vm_compute. reflexivity.
Qed.

(** ** File names *)

Lemma length_append s t :
  String.length (s +:+ t) = (String.length s + String.length t)%nat.
Proof.
  induction s as [|a s IH]; [reflexivity|].
  change (String a s +:+ t) with (String a (s +:+ t)). simpl. now rewrite IH.
Qed.

Lemma append_inj_suffix s1 s2 t : s1 +:+ t = s2 +:+ t -> s1 = s2.
Proof.
  revert s2. induction s1 as [|a s1 IH]; intros [|b s2] H.
  - reflexivity.
  - apply (f_equal String.length) in H.
    change (String b s2 +:+ t) with (String b (s2 +:+ t)) in H.
    change ("" +:+ t) with t in H. simpl in H. rewrite length_append in H. lia.
  - apply (f_equal String.length) in H.
    change (String a s1 +:+ t) with (String a (s1 +:+ t)) in H.
    change ("" +:+ t) with t in H. simpl in H. rewrite length_append in H. lia.
  - change (String a s1 +:+ t) with (String a (s1 +:+ t)) in H.
    change (String b s2 +:+ t) with (String b (s2 +:+ t)) in H.
    injection H as -> H. f_equal. now apply IH.
Qed.

Lemma name_inj prefix suffix (n m : Z) :
  prefix +:+ pretty n +:+ suffix = prefix +:+ pretty m +:+ suffix -> n = m.
Proof.
  intros H. apply String.app_inj in H. apply append_inj_suffix in H.
  now apply pretty_Z_inj in H.
Qed.

(** ** Small facts on indices *)

Lemma to_uint32_small z : 0 <= z <= UINT32_MAX -> to_uint32 z = z.
Proof. intros H. unfold to_uint32, UINT32_MAX in *. apply Z.mod_small. lia. Qed.

Lemma flat_map_length_7 {A B} (f : A -> list B) l :
  (forall a, length (f a) = 7%nat) -> length (flat_map f l) = (7 * length l)%nat.
Proof.
  intros H. induction l as [|a l IH]; [reflexivity|].
  cbn [flat_map]. rewrite length_app, H, IH. simpl. lia.
Qed.

Lemma record_of_insert_default stats i j :
  stats !! i = None ->
  record_of (<[i := FlowStats_default]> stats) j = record_of stats j.
Proof.
  intros H. unfold record_of.
  destruct (decide (i = to_uint32 j)) as [->|Hne].
  - now rewrite lookup_insert_eq, H.
  - now rewrite lookup_insert_ne.
Qed.

(** * Properties of the program *)

(** C1. The loss ratio of every reported flow is computed as
    lostPackets / txPackets * 100 in [double] arithmetic, whatever txPackets
    is: line 6 of flow [i] shows that value for every record.  With
    lostPackets = 2 and txPackets = 10 it is 20.0.  With txPackets = 0 the
    division is still made: the value is not-a-number when lostPackets = 0
    and plus infinity when lostPackets > 0. *)
Theorem loss_ratio_unguarded (stats : FlowStatsContainer) (nWifi i : Z) :
  2 <= i <= nWifi ->
  flow_line (report stats nWifi) i 6
  = Some [Str "Packet loss ratio: ";
          DblTok (dmul (ddiv (Z2double (lostPackets (record_of stats i)))
                             (Z2double (txPackets (record_of stats i))))
                       (Z2double 100));
          Str "%"]
  /\ (forall r, spec_lossRatioPercent r
                = dmul (ddiv (Z2double (lostPackets r)) (Z2double (txPackets r)))
                       (Z2double 100))
  /\ (forall r, lostPackets r = 2 -> txPackets r = 10 ->
                spec_lossRatioPercent r = Z2double 20)
  /\ (forall r, txPackets r = 0 -> lostPackets r = 0 ->
                spec_lossRatioPercent r = S754_nan)
  /\ (forall r, txPackets r = 0 -> 0 < lostPackets r <= UINT32_MAX ->
                spec_lossRatioPercent r = S754_infinity false).
Proof.
  intros Hi. split; [|split; [|split; [|split]]].
  - rewrite flow_line_closed by (auto; lia). reflexivity.
  - reflexivity.
  - intros r Hl Ht. unfold spec_lossRatioPercent. rewrite Hl, Ht.
    vm_compute. reflexivity.
  - intros r Ht Hl. unfold spec_lossRatioPercent. rewrite Hl, Ht. reflexivity.
  - intros r Ht Hl. unfold spec_lossRatioPercent. rewrite Ht.
    destruct (lostPackets r) as [|p|p]; try lia.
    rewrite Z2double_pos by (unfold UINT32_MAX in Hl; lia).
    rewrite Z2double_0, Z2double_100. reflexivity.
Qed.

Lemma loss_ratio_unguarded_witness :
  2 <= 2 <= 3
  /\ flow_line (report (<[2 := mkFlowStats 5120 0 10 0 2 0]> ∅) 3) 2 6
     = Some [Str "Packet loss ratio: "; DblTok (Z2double 20); Str "%"].
Proof.
  split; [lia|].
  exact (proj1 (loss_ratio_unguarded (<[2 := mkFlowStats 5120 0 10 0 2 0]> ∅) 3 2
                  ltac:(lia))).
Defined.

(** C2. For every reported flow, line 1 shows the TX bitrate
    txBytes * 8 / (duration * 1000) in kbit/s when txBytes > 0 and "None"
    when txBytes = 0, and line 2 does the same for rxBytes.  The duration is
    stop time minus start time, 25 s - 1 s = 24 s.  With txBytes = 51200 the
    rate shows as 17.0667. *)
Theorem bitrates_reduced (stats : FlowStatsContainer) (nWifi i : Z) :
  2 <= i <= nWifi ->
  flow_line (report stats nWifi) i 1
  = Some (Str "TX bitrates: "
          :: show_rate (spec_bitrateKbps (txBytes (record_of stats i)) 24))
  /\ flow_line (report stats nWifi) i 2
     = Some (Str "RX bitrate: "
             :: show_rate (spec_bitrateKbps (rxBytes (record_of stats i)) 24))
  /\ kSimulationStopTime - kSimulationStartTime = Seconds 24
  /\ GetSeconds (kSimulationStopTime - kSimulationStartTime) = Z2double 24
  /\ (forall bytes, 0 < bytes ->
        show_rate (spec_bitrateKbps bytes 24)
        = [DblTok (ddiv (dmul (Z2double bytes) (Z2double 8))
                        (dmul (Z2double 24) (Z2double 1000)));
           Str " kbit/s"])
  /\ show_rate (spec_bitrateKbps 0 24) = [Str "None"]
  /\ (exists v, spec_bitrateKbps 51200 24 = Some v
                /\ decimals 4 v = Some 170667).
Proof.
  intros Hi. repeat match goal with |- _ /\ _ => split end.
  - now rewrite flow_line_closed by (auto; lia).
  - now rewrite flow_line_closed by (auto; lia).
  - reflexivity.
  - apply GetSeconds_simulationTime.
  - intros bytes Hb. unfold spec_bitrateKbps.
    now replace (0 <? bytes) with true by (symmetry; apply Z.ltb_lt; lia).
  - reflexivity.
  - eexists. split; vm_compute; reflexivity.
Qed.

Lemma bitrates_reduced_witness :
  2 <= 2 <= 3
  /\ flow_line (report (<[2 := mkFlowStats 51200 0 10 0 2 0]> ∅) 3) 2 1
     = Some [Str "TX bitrates: ";
             DblTok (S754_finite false 4803839602528529 (-48));
             Str " kbit/s"]
  /\ flow_line (report (<[2 := mkFlowStats 51200 0 10 0 2 0]> ∅) 3) 2 2
     = Some [Str "RX bitrate: "; Str "None"].
Proof.
  split; [lia|].
  pose proof (bitrates_reduced (<[2 := mkFlowStats 51200 0 10 0 2 0]> ∅) 3 2
                ltac:(lia)) as (Htx & Hrx & _).
  split; [exact Htx | exact Hrx].
Defined.

(** C3. For every reported flow, line 5 shows the mean delay
    delaySum / rxPackets when rxPackets > 0 and "None" when rxPackets = 0;
    a flow that received nothing never shows a delay of zero. *)
Theorem mean_delay_reduced (stats : FlowStatsContainer) (nWifi i : Z) :
  2 <= i <= nWifi ->
  flow_line (report stats nWifi) i 5
  = Some (Str "Mean delay: " :: show_delay (spec_meanDelay (record_of stats i)))
  /\ (forall r, 0 < rxPackets r ->
        show_delay (spec_meanDelay r)
        = [TimeTok (time_div (delaySum r) (rxPackets r))])
  /\ (forall r, rxPackets r = 0 -> show_delay (spec_meanDelay r) = [Str "None"]).
Proof.
  intros Hi. repeat match goal with |- _ /\ _ => split end.
  - now rewrite flow_line_closed by (auto; lia).
  - intros r Hr. unfold spec_meanDelay.
    now replace (0 <? rxPackets r) with true by (symmetry; apply Z.ltb_lt; lia).
  - intros r Hr. unfold spec_meanDelay. now rewrite Hr.
Qed.

Lemma mean_delay_reduced_witness :
  2 <= 3 <= 3
  /\ flow_line (report (<[3 := mkFlowStats 5120 4096 10 8 2 1000000]> ∅) 3) 3 5
     = Some [Str "Mean delay: "; TimeTok 125000].
Proof.
  split; [lia|].
  exact (proj1 (mean_delay_reduced
                  (<[3 := mkFlowStats 5120 4096 10 8 2 1000000]> ∅) 3 3
                  ltac:(lia))).
Defined.

Lemma run_console {St} engine nWifi interval maxPackets (s : St) :
  lines (cout_tokens (trace (RunSimulation engine nWifi interval maxPackets) s))
  = [Str "Simulation running..."] :: report (engine nWifi interval maxPackets) nWifi.
Proof.
  unfold report, cout_tokens, trace at 1. rewrite RunSimulation_run. cbn [snd].
  rewrite !omap_app. rewrite !omap_map_none by reflexivity.
  rewrite !PrintFlowStatistics_trace. reflexivity.
Qed.

(** C6. The console of a run with N nodes is its report after one line of
    progress, and the report has one entry for each flow identifier
    2, 3, ..., N, in this order, of seven lines each, and no entry for the
    identifiers 0 and 1. *)
Theorem report_covers_flows_2_to_N (stats : FlowStatsContainer) (nWifi : Z) :
  (forall engine interval maxPackets,
     lines (cout_tokens (trace (RunSimulation engine nWifi interval maxPackets) tt))
     = [Str "Simulation running..."]
       :: report (engine nWifi interval maxPackets) nWifi)
  /\ reported_ids (report stats nWifi) = seqZ 2 (nWifi - 1)
  /\ length (report stats nWifi) = (7 * length (seqZ 2 (nWifi - 1)))%nat
  /\ (forall i, In i (reported_ids (report stats nWifi)) <-> 2 <= i <= nWifi)
  /\ ~ In 0 (reported_ids (report stats nWifi))
  /\ ~ In 1 (reported_ids (report stats nWifi)).
Proof.
  assert (forall i, In i (reported_ids (report stats nWifi)) <-> 2 <= i <= nWifi)
    as Hin.
  { intros i. rewrite reported_ids_closed, <- list_elem_of_In, elem_of_seqZ. lia. }
  split; [intros; apply run_console|].
  split; [apply reported_ids_closed|].
  split; [rewrite report_closed; now apply flat_map_length_7|].
  split; [exact Hin|].
  split; rewrite Hin; lia.
Qed.

(** C10. When the engine's map has no entry for an identifier i in 2..N,
    the report still has the seven lines of flow i: [stats[i]] yields an
    all-zero record, so both bitrates and the mean delay show "None", the
    packet counts show 0 and the loss ratio is 0/0, not-a-number.  The
    report is the one an all-zero entry would give, and the other
    identifiers are reported as usual. *)
Theorem missing_flow_reports_defaults (stats : FlowStatsContainer) (nWifi i : Z) :
  2 <= i <= nWifi -> nWifi <= INT_MAX -> stats !! i = None ->
  map (flow_line (report stats nWifi) i) (seq 0 7)
  = map Some
      [ [Str "======= "; Str "FlowID: "; IntTok i; Str " ======="];
        [Str "TX bitrates: "; Str "None"];
        [Str "RX bitrate: "; Str "None"];
        [Str "TX packets: "; IntTok 0];
        [Str "RX packets: "; IntTok 0];
        [Str "Mean delay: "; Str "None"];
        [Str "Packet loss ratio: "; DblTok S754_nan; Str "%"] ]
  /\ report stats nWifi = report (<[i := FlowStats_default]> stats) nWifi
  /\ reported_ids (report stats nWifi) = seqZ 2 (nWifi - 1).
Proof.
  intros Hi HN Hnone.
  assert (record_of stats i = FlowStats_default) as Hr.
  { unfold record_of. rewrite to_uint32_small by (unfold INT_MAX, UINT32_MAX in *; lia).
    now rewrite Hnone. }
  split; [|split].
  - cbn [map seq]. rewrite !flow_line_closed by (auto; lia). rewrite Hr. reflexivity.
  - rewrite !report_closed. apply flat_map_ext. intros j.
    now rewrite record_of_insert_default.
  - apply reported_ids_closed.
Qed.

Lemma missing_flow_reports_defaults_witness :
  2 <= 3 <= 3 /\ 3 <= INT_MAX
  /\ (<[2 := mkFlowStats 5120 0 10 0 2 0]> ∅ : FlowStatsContainer) !! 3 = None
  /\ report (<[2 := mkFlowStats 5120 0 10 0 2 0]> ∅) 3
     = report (<[3 := FlowStats_default]> (<[2 := mkFlowStats 5120 0 10 0 2 0]> ∅)) 3.
Proof.
  split; [lia|]. split; [unfold INT_MAX; lia|]. split; [reflexivity|].
  exact (proj1 (proj2 (missing_flow_reports_defaults
                (<[2 := mkFlowStats 5120 0 10 0 2 0]> ∅) 3 3
                ltac:(lia) ltac:(unfold INT_MAX; lia) eq_refl))).
Defined.

Lemma map_seqZ_ext {B} (f g : Z -> B) lo n :
  (forall i, lo <= i < lo + n -> f i = g i) ->
  map f (seqZ lo n) = map g (seqZ lo n).
Proof.
  intros H. apply map_ext_in. intros i Hin.
  apply list_elem_of_In, elem_of_seqZ in Hin. now apply H.
Qed.

Lemma clients_SetupApplications nWifi interval maxPackets nodes :
  clients (trace (SetupApplications nWifi interval maxPackets) nodes)
  = map (fun i => (Get i, Get (Z.rem (i + 1) nWifi))) (seqZ 0 nWifi).
Proof.
  unfold trace, clients. rewrite SetupApplications_run. cbn [snd].
  rewrite omap_app.
  rewrite (omap_map_some _ _ (fun i => (Get i, Get (Z.rem (i + 1) nWifi))))
    by reflexivity.
  cbn. now rewrite app_nil_r.
Qed.

Lemma sinks_SetupApplications nWifi interval maxPackets nodes :
  sinks (trace (SetupApplications nWifi interval maxPackets) nodes)
  = [(Get (nWifi - 1), kPort)].
Proof.
  unfold trace, sinks. rewrite SetupApplications_run. cbn [snd].
  rewrite omap_app. rewrite omap_map_none by reflexivity. reflexivity.
Qed.

(** C4. For every N >= 2 there is one echo client per node, in node order;
    client i addresses node (i + 1) mod N, so client N - 1 addresses node 0;
    and there is one sink, on node N - 1 and port 443, wherever the clients
    point. *)
Theorem ring_traffic_pattern (nWifi interval maxPackets : Z) (nodes : NodeContainer) :
  2 <= nWifi <= INT_MAX ->
  clients (trace (SetupApplications nWifi interval maxPackets) nodes)
  = map (fun i => (i, (i + 1) mod nWifi)) (seqZ 0 nWifi)
  /\ length (clients (trace (SetupApplications nWifi interval maxPackets) nodes))
     = Z.to_nat nWifi
  /\ In (nWifi - 1, 0)
        (clients (trace (SetupApplications nWifi interval maxPackets) nodes))
  /\ (forall i d,
        In (i, d) (clients (trace (SetupApplications nWifi interval maxPackets) nodes)) ->
        0 <= d < nWifi)
  /\ sinks (trace (SetupApplications nWifi interval maxPackets) nodes)
     = [(nWifi - 1, 443)]
  /\ spec_build nWifi
     = inr (mkTraffic
              (clients (trace (SetupApplications nWifi interval maxPackets) nodes))
              (nWifi - 1)).
Proof.
  intros HN. unfold INT_MAX in HN.
  assert (clients (trace (SetupApplications nWifi interval maxPackets) nodes)
          = map (fun i => (i, (i + 1) mod nWifi)) (seqZ 0 nWifi)) as Hc.
  { rewrite clients_SetupApplications. apply map_seqZ_ext. intros i Hi.
    rewrite Z.rem_mod_nonneg by lia.
    pose proof (Z.mod_pos_bound (i + 1) nWifi ltac:(lia)).
    unfold Get. rewrite !to_uint32_small by (unfold UINT32_MAX; lia).
    reflexivity. }
  rewrite Hc. repeat match goal with |- _ /\ _ => split end.
  - reflexivity.
  - rewrite length_map, length_seqZ. reflexivity.
  - apply in_map_iff. exists (nWifi - 1). split.
    + f_equal. replace (nWifi - 1 + 1) with nWifi by lia. apply Z.mod_same. lia.
    + apply list_elem_of_In, elem_of_seqZ. lia.
  - intros i d Hin. apply in_map_iff in Hin as [j [Hj _]].
    injection Hj as _ <-. apply Z.mod_pos_bound. lia.
  - rewrite sinks_SetupApplications. unfold Get.
    now rewrite to_uint32_small by (unfold UINT32_MAX; lia).
  - unfold spec_build.
    now replace (nWifi <? 2) with false by (symmetry; apply Z.ltb_ge; lia).
Qed.

Lemma ring_traffic_pattern_witness :
  2 <= 4 <= INT_MAX
  /\ clients (trace (SetupApplications 4 5 10) 4) = [(0, 1); (1, 2); (2, 3); (3, 0)].
Proof.
  split; [unfold INT_MAX; lia|].
  exact (proj1 (ring_traffic_pattern 4 5 10 4 ltac:(unfold INT_MAX; lia))).
Defined.

(** C5, as the specification states it, fails on the program: with N = 1
    the specification's builder reports InvalidTopologySize, while
    [SetupApplications] calls the engine, installing on node 0 a client
    that addresses node 0 itself. *)
Lemma size_one_is_not_rejected :
  spec_build 1 = inl InvalidTopologySize
  /\ trace (SetupApplications 1 5 10) 1 <> []
  /\ In (EchoClientInstall 0 0 443 10 5 512 (Seconds 1) (Seconds 25))
        (trace (SetupApplications 1 5 10) 1).
Proof.
  split; [reflexivity|]. split; [discriminate|]. left. reflexivity.
Qed.

(** C7. The sweep makes one run for each node count 2, 3, ..., 30, in
    this order and one after the other: the trace of [main] is the trace of
    run 2, then that of run 3, and so on, and in it the nodes of run N are
    created, the scheduler is run and the simulator destroyed before the
    nodes of run N + 1 are created. *)
Theorem sweep_runs_2_to_30_in_order engine (interval maxPackets : Z) :
  trace (main engine interval maxPackets) tt
  = flat_map (fun node =>
      trace (RunSimulation engine node interval maxPackets) tt
      ++ [Cout (Str "Simulation for "); Cout (IntTok node);
          Cout (Str " nodes"); Cout Endl])
      (seqZ 2 29)
  /\ runs (trace (main engine interval maxPackets) tt) = seqZ 2 29
  /\ seqZ 2 29 = [2; 3; 4; 5; 6; 7; 8; 9; 10; 11; 12; 13; 14; 15; 16; 17; 18;
                  19; 20; 21; 22; 23; 24; 25; 26; 27; 28; 29; 30]
  /\ lifecycle (trace (main engine interval maxPackets) tt)
     = flat_map (fun node => [NodesCreate node; SimulatorRun; SimulatorDestroy])
                (seqZ 2 29)
  /\ (main engine interval maxPackets tt).1.1 = 0.
Proof.
  split; [apply main_trace|].
  split; [apply runs_main|].
  split; [reflexivity|].
  split; [apply lifecycle_main | apply main_returns].
Qed.

(** C8. A run with N nodes serialises its results to two files, named
    from N alone: the flow report flowmonitor-N-nodes.xml and the animation
    trace anim-N-nodes.xml, in this order; different node counts give
    different names.  (The only other files of a run are the packet
    captures of its devices, named from the device index.) *)
Theorem run_artifacts engine (nWifi interval maxPackets : Z) :
  artifacts (trace (RunSimulation engine nWifi interval maxPackets) tt)
  = ["flowmonitor-" +:+ pretty nWifi +:+ "-nodes.xml";
     "anim-" +:+ pretty nWifi +:+ "-nodes.xml"]
  /\ (forall n, flowmonitor_file n = flowmonitor_file nWifi -> n = nWifi)
  /\ (forall n, anim_file n = anim_file nWifi -> n = nWifi)
  /\ artifacts (trace (RunSimulation engine 2 interval maxPackets) tt)
     = ["flowmonitor-2-nodes.xml"; "anim-2-nodes.xml"]
  /\ artifacts (trace (RunSimulation engine 30 interval maxPackets) tt)
     = ["flowmonitor-30-nodes.xml"; "anim-30-nodes.xml"]
  /\ captures (trace (RunSimulation engine nWifi interval maxPackets) tt)
     = map (fun i => "wifi-node-" +:+ pretty i +:+ ".pcap")
           (seqZ 0 (to_uint32 nWifi)).
Proof.
  repeat match goal with |- _ /\ _ => split end.
  - apply artifacts_run.
  - intros n. apply name_inj.
  - intros n. apply name_inj.
  - rewrite artifacts_run. vm_compute. reflexivity.
  - rewrite artifacts_run. vm_compute. reflexivity.
  - apply captures_run.
Qed.

Lemma animation_positions_ExportAnimation nWifi nodes :
  animation_positions (trace (ExportAnimation nWifi) nodes)
  = map (fun i => (Get i, (i * 10, 0))) (seqZ 0 nWifi).
Proof.
  unfold trace, animation_positions. rewrite ExportAnimation_run. cbn [snd].
  change (AnimationOpen ?f :: ?l) with ([AnimationOpen f] ++ l).
  rewrite !omap_app.
  rewrite (omap_map_some _ _ (fun i => (Get i, (i * 10, 0)))) by reflexivity.
  cbn. now rewrite app_nil_r.
Qed.

Lemma topology_position_eq i : topology_position i = (5 * (i mod 6), 10 * (i / 6)).
Proof.
  unfold topology_position, place, kGridWidth, kMinX, kMinY, kDeltaX, kDeltaY.
  f_equal; lia.
Qed.

Lemma animation_off_grid i : 1 <= i -> (10 * i, 0) <> topology_position i.
Proof.
  intros Hi. rewrite topology_position_eq. intros [= Hx Hy].
  assert (i / 6 = 0) as Hq by lia.
  apply Z.div_small_iff in Hq; [|lia].
  rewrite Z.mod_small in Hx by lia. lia.
Qed.

(** C9. The animation gives node i the position (10 i, 0), whatever the
    topology; the grid of the topology puts node i at
    (5 (i mod 6), 10 (i div 6)); so for every node i >= 1 of every run the
    position in the animation is not the simulated one. *)
Theorem animation_disagrees_with_topology (nWifi : Z) (nodes : NodeContainer) :
  nWifi * 10 <= INT_MAX ->
  animation_positions (trace (ExportAnimation nWifi) nodes)
  = map (fun i => (i, (10 * i, 0))) (seqZ 0 nWifi)
  /\ (forall i, topology_position i = (5 * (i mod 6), 10 * (i / 6)))
  /\ (forall i, 1 <= i -> (10 * i, 0) <> topology_position i)
  /\ (forall i p,
        1 <= i ->
        In (i, p) (animation_positions (trace (ExportAnimation nWifi) nodes)) ->
        p <> topology_position i).
Proof.
  intros HN. unfold INT_MAX in HN.
  assert (animation_positions (trace (ExportAnimation nWifi) nodes)
          = map (fun i => (i, (10 * i, 0))) (seqZ 0 nWifi)) as Ha.
  { rewrite animation_positions_ExportAnimation. apply map_seqZ_ext.
    intros i Hi. unfold Get.
    rewrite to_uint32_small by (unfold UINT32_MAX; lia).
    now rewrite (Z.mul_comm i 10). }
  rewrite Ha. repeat match goal with |- _ /\ _ => split end.
  - reflexivity.
  - apply topology_position_eq.
  - apply animation_off_grid.
  - intros i p Hi Hin. apply in_map_iff in Hin as [j [Hj _]].
    injection Hj as -> <-. now apply animation_off_grid.
Qed.

Lemma animation_disagrees_with_topology_witness :
  7 * 10 <= INT_MAX
  /\ animation_positions (trace (ExportAnimation 7) 7)
     = [(0, (0, 0)); (1, (10, 0)); (2, (20, 0)); (3, (30, 0)); (4, (40, 0));
        (5, (50, 0)); (6, (60, 0))].
Proof.
  split; [unfold INT_MAX; lia|].
  exact (proj1 (animation_disagrees_with_topology 7 7 ltac:(unfold INT_MAX; lia))).
Defined.

(** * Further properties *)

(** ** Rounding stays finite *)

Lemma shr_1_bounds mrs :
  0 <= shr_m mrs -> 0 <= shr_m (shr_1 mrs) <= shr_m mrs.
Proof.
  destruct mrs as [m r s]. cbn [shr_m]. intros Hm.
  destruct m as [|[p|p|]|p]; cbn [shr_1 shr_m]; lia.
Qed.

Lemma iter_shr_1_bounds p : forall mrs,
  0 <= shr_m mrs -> 0 <= shr_m (@SpecFloat.iter_pos _ shr_1 p mrs) <= shr_m mrs.
Proof.
  induction p as [p IH|p IH|]; intros mrs Hm; cbn [SpecFloat.iter_pos].
  - pose proof (shr_1_bounds mrs Hm) as H1.
    pose proof (IH (shr_1 mrs) ltac:(lia)) as H2.
    pose proof (IH (@SpecFloat.iter_pos _ shr_1 p (shr_1 mrs)) ltac:(lia)). lia.
  - pose proof (IH mrs Hm) as H1.
    pose proof (IH (@SpecFloat.iter_pos _ shr_1 p mrs) ltac:(lia)). lia.
  - now apply shr_1_bounds.
Qed.

Lemma shr_bounds mrs e n :
  0 <= shr_m mrs ->
  0 <= shr_m (shr mrs e n).1 <= shr_m mrs
  /\ (shr mrs e n).2 = e + Z.max 0 n.
Proof.
  intros Hm. destruct n as [|p|p]; cbn [shr fst snd].
  - lia.
  - split; [now apply iter_shr_1_bounds | lia].
  - lia.
Qed.

Lemma shr_record_of_loc_m m l : shr_m (shr_record_of_loc m l) = m.
Proof. now destruct l as [|[]]. Qed.

Lemma Zdigits2_bound m K : 0 <= K -> 0 <= m < 2 ^ K -> 0 <= Zdigits2 m <= K.
Proof.
  intros HK Hm. destruct m as [|p|p]; cbn [Zdigits2]; try lia.
  pose proof (digits2_pos_bound p K HK ltac:(lia)). lia.
Qed.

Lemma shr_fexp_bounds m e l K :
  0 <= K -> 0 <= m < 2 ^ K -> -1074 <= e ->
  0 <= shr_m (shr_fexp 53 1024 m e l).1 <= m
  /\ e <= (shr_fexp 53 1024 m e l).2 <= e + K.
Proof.
  intros HK Hm He. unfold shr_fexp.
  pose proof (shr_bounds (shr_record_of_loc m l) e
                (fexp 53 1024 (Zdigits2 m + e) - e)) as Hs.
  rewrite shr_record_of_loc_m in Hs. destruct (Hs ltac:(lia)) as [H1 H2].
  split; [exact H1|]. rewrite H2.
  pose proof (Zdigits2_bound m K HK Hm).
  unfold fexp, emin. lia.
Qed.

Lemma round_nearest_even_bounds m l :
  m <= round_nearest_even m l <= m + 1.
Proof.
  destruct l as [|[]]; cbn [round_nearest_even]; try lia.
  destruct (Z.even m); lia.
Qed.

(** Rounding a mantissa below 2^K at a moderate exponent gives zero or a
    finite number of the same sign. *)
Lemma binary_round_aux_finite s m e l K :
  0 <= K -> 0 <= m < 2 ^ K -> -1074 <= e -> e + 2 * K + 1 <= 971 ->
  binary_round_aux 53 1024 s m e l = S754_zero s
  \/ exists m' e',
       binary_round_aux 53 1024 s m e l = S754_finite s m' e'
       /\ Z.pos m' <= m + 1 /\ e <= e' <= e + 2 * K + 1.
Proof.
  intros HK Hm He Hb. unfold binary_round_aux.
  pose proof (shr_fexp_bounds m e l K HK Hm He) as [Hm1 He1].
  destruct (shr_fexp 53 1024 m e l) as [mrs1 e1]. cbn [fst snd] in *.
  pose proof (round_nearest_even_bounds (shr_m mrs1) (loc_of_shr_record mrs1)) as Hr.
  set (m1 := round_nearest_even (shr_m mrs1) (loc_of_shr_record mrs1)) in *.
  assert (0 <= m1 < 2 ^ (K + 1)) as Hm1'.
  { rewrite Z.pow_add_r by lia. lia. }
  pose proof (shr_fexp_bounds m1 e1 loc_Exact (K + 1) ltac:(lia) Hm1' ltac:(lia))
    as [Hm2 He2].
  destruct (shr_fexp 53 1024 m1 e1 loc_Exact) as [mrs2 e2]. cbn [fst snd] in *.
  destruct (shr_m mrs2) as [|p|p]; [now left | | lia].
  right. exists p, e2.
  replace (e2 <=? 1024 - 53) with true by (symmetry; apply Z.leb_le; lia).
  repeat split; lia.
Qed.

(** ** Division of converted counters *)

Lemma digits2_pos_gt p : Z.pos p < 2 ^ Z.pos (digits2_pos p).
Proof.
  rewrite digits2_pos_size, <- Pos2Z.inj_pow.
  apply Pos2Z.pos_lt_pos, Pos.size_gt.
Qed.

(** A counter from 1 to 2^32 - 1 converts to a normal number: a mantissa of
    53 digits at an exponent from -52 to -21. *)
Lemma Z2double_uint32 z :
  0 < z <= UINT32_MAX ->
  exists m e,
    Z2double z = S754_finite false m e
    /\ Z.pos (digits2_pos m) = 53 /\ -52 <= e <= -21.
Proof.
  intros Hz. unfold UINT32_MAX in Hz. destruct z as [|p|p]; try lia.
  pose proof (digits2_pos_bound p 32 ltac:(lia) ltac:(lia)) as Hd.
  rewrite Z2double_pos by lia. eexists _, _. split; [reflexivity|].
  rewrite digits2_pos_iter_xO. lia.
Qed.

Lemma SFdiv_core_normal mx ex my ey :
  Z.pos (digits2_pos mx) = 53 -> Z.pos (digits2_pos my) = 53 ->
  -60 <= ex - ey <= 60 ->
  SFdiv_core_binary 53 1024 (Z.pos mx) ex (Z.pos my) ey
  = (Z.pos mx * 2 ^ 53 / Z.pos my, ex - ey - 53,
     new_location (Z.pos my) ((Z.pos mx * 2 ^ 53) mod Z.pos my)).
Proof.
  intros Hx Hy He. unfold SFdiv_core_binary. cbn [Zdigits2]. rewrite Hx, Hy.
  replace (Z.min (fexp 53 1024 (53 + ex - (53 + ey))) (ex - ey))
    with (ex - ey - 53) by (unfold fexp, emin; lia).
  replace (ex - ey - (ex - ey - 53)) with 53 by lia.
  cbv beta iota zeta. rewrite Z.shiftl_mul_pow2 by lia.
  unfold Z.div, Z.modulo.
  now destruct (Z.div_eucl (Z.pos mx * 2 ^ 53) (Z.pos my)).
Qed.

Lemma mantissa_53_bound m : Z.pos (digits2_pos m) = 53 -> Z.pos m < 2 ^ 53.
Proof. intros H. rewrite <- H. apply digits2_pos_gt. Qed.

(** The quotient of two counters, the divisor not zero, is zero or a finite
    positive number; so is its product by 100. *)
Lemma loss_ratio_finite_value lost tx :
  0 <= lost <= UINT32_MAX -> 0 < tx <= UINT32_MAX ->
  dmul (ddiv (Z2double lost) (Z2double tx)) (Z2double 100) = S754_zero false
  \/ exists m e,
       dmul (ddiv (Z2double lost) (Z2double tx)) (Z2double 100)
       = S754_finite false m e.
Proof.
  intros Hl Ht.
  destruct (Z2double_uint32 tx Ht) as (my & ey & -> & Hdy & Hey).
  destruct (Z.eq_dec lost 0) as [->|Hne].
  { left. reflexivity. }
  destruct (Z2double_uint32 lost ltac:(lia)) as (mx & ex & -> & Hdx & Hex).
  unfold ddiv, SFdiv. rewrite SFdiv_core_normal by (assumption || lia).
  cbn [xorb].
  pose proof (mantissa_53_bound mx Hdx) as Hmx.
  assert (0 <= Z.pos mx * 2 ^ 53 / Z.pos my < 2 ^ 106) as Hq.
  { split; [apply Z.div_pos; lia|].
    apply Z.div_lt_upper_bound; [lia|].
    change (2 ^ 106) with (2 ^ 53 * 2 ^ 53). nia. }
  destruct (binary_round_aux_finite false (Z.pos mx * 2 ^ 53 / Z.pos my)
              (ex - ey - 53)
              (new_location (Z.pos my) ((Z.pos mx * 2 ^ 53) mod Z.pos my))
              106 ltac:(lia) Hq ltac:(lia) ltac:(lia))
    as [-> | (m' & e' & -> & Hm' & He')].
  { left. rewrite Z2double_100. reflexivity. }
  rewrite Z2double_100. unfold dmul, SFmul. cbn [xorb].
  assert (0 <= Z.pos (m' * 7036874417766400) < 2 ^ 160) as Hp.
  { rewrite Pos2Z.inj_mul. split; [lia|].
    change (2 ^ 160) with (2 ^ 107 * 2 ^ 53).
    assert (Z.pos m' < 2 ^ 107) by (change (2 ^ 107) with (2 ^ 106 * 2); lia).
    assert (7036874417766400 < 2 ^ 53) by reflexivity. nia. }
  destruct (binary_round_aux_finite false (Z.pos (m' * 7036874417766400))
              (e' + -46) loc_Exact 160 ltac:(lia) Hp ltac:(lia) ltac:(lia))
    as [-> | (m'' & e'' & -> & _)].
  - now left.
  - right. now exists m'', e''.
Qed.

(** A flow that lost every packet it sent: the ratio is exactly 100. *)
Lemma loss_ratio_all_lost tx :
  0 < tx <= UINT32_MAX ->
  dmul (ddiv (Z2double tx) (Z2double tx)) (Z2double 100) = Z2double 100.
Proof.
  intros Ht.
  destruct (Z2double_uint32 tx Ht) as (m & e & -> & Hd & He).
  unfold ddiv, SFdiv. rewrite SFdiv_core_normal by (assumption || lia).
  rewrite Z.mul_comm, Z.div_mul, Z.mod_mul by lia.
  replace (e - e - 53) with (-53) by lia.
  replace (new_location (Z.pos m) 0) with loc_Exact
    by (unfold new_location, new_location_even, new_location_odd;
        now destruct (Z.even (Z.pos m))).
  vm_compute. reflexivity.
Qed.

(** A flow that lost nothing: the ratio is exactly 0. *)
Lemma loss_ratio_none_lost tx :
  0 < tx <= UINT32_MAX ->
  dmul (ddiv (Z2double 0) (Z2double tx)) (Z2double 100) = Z2double 0.
Proof.
  intros Ht.
  destruct (Z2double_uint32 tx Ht) as (m & e & -> & _). reflexivity.
Qed.

(** ** The report *)

(** X1. Every reported flow has the same seven lines in the same order:
    the header with its identifier, the TX and RX bitrates, the TX and RX
    packet counts as the record has them, the mean delay and the loss
    ratio. *)
Theorem report_flow_entry (stats : FlowStatsContainer) (nWifi i : Z) :
  2 <= i <= nWifi ->
  map (flow_line (report stats nWifi) i) (seq 0 7)
  = map Some
      [ [Str "======= "; Str "FlowID: "; IntTok i; Str " ======="];
        Str "TX bitrates: "
          :: show_rate (spec_bitrateKbps (txBytes (record_of stats i)) 24);
        Str "RX bitrate: "
          :: show_rate (spec_bitrateKbps (rxBytes (record_of stats i)) 24);
        [Str "TX packets: "; IntTok (txPackets (record_of stats i))];
        [Str "RX packets: "; IntTok (rxPackets (record_of stats i))];
        Str "Mean delay: " :: show_delay (spec_meanDelay (record_of stats i));
        [Str "Packet loss ratio: ";
         DblTok (spec_lossRatioPercent (record_of stats i)); Str "%"] ].
Proof.
  intros Hi. cbn [map seq].
  rewrite !flow_line_closed by (auto; lia). reflexivity.
Qed.

Lemma report_flow_entry_witness :
  2 <= 2 <= 2
  /\ map (flow_line (report (<[2 := mkFlowStats 0 1024 0 2 0 3000001]> ∅) 2) 2)
         (seq 0 7)
     = map Some
         [ [Str "======= "; Str "FlowID: "; IntTok 2; Str " ======="];
           [Str "TX bitrates: "; Str "None"];
           [Str "RX bitrate: ";
            DblTok (S754_finite false 6148914691236517 (-54)); Str " kbit/s"];
           [Str "TX packets: "; IntTok 0];
           [Str "RX packets: "; IntTok 2];
           [Str "Mean delay: "; TimeTok 1500000];
           [Str "Packet loss ratio: "; DblTok S754_nan; Str "%"] ].
Proof.
  split; [lia|].
  exact (report_flow_entry (<[2 := mkFlowStats 0 1024 0 2 0 3000001]> ∅) 2 2
           ltac:(lia)).
Defined.

Lemma flat_map_ext_In {A B} (f g : A -> list B) l :
  (forall x, In x l -> f x = g x) -> flat_map f l = flat_map g l.
Proof.
  induction l as [|a l IH]; intros H; [reflexivity|].
  cbn [flat_map]. rewrite (H a) by now left.
  f_equal. apply IH. intros x Hx. apply H. now right.
Qed.

(** X2. The report reads the engine's map at the keys 2..N only: two maps
    that agree there give the same report, whatever else they hold (a flow
    1, flows above N). *)
Theorem report_reads_keys_2_to_N (stats1 stats2 : FlowStatsContainer) (nWifi : Z) :
  nWifi <= INT_MAX ->
  (forall i, 2 <= i <= nWifi -> stats1 !! i = stats2 !! i) ->
  report stats1 nWifi = report stats2 nWifi.
Proof.
  intros HN Hagree. rewrite !report_closed.
  apply flat_map_ext_In. intros i Hin.
  apply list_elem_of_In, elem_of_seqZ in Hin.
  unfold record_of.
  rewrite to_uint32_small by (unfold INT_MAX, UINT32_MAX in *; lia).
  now rewrite Hagree by lia.
Qed.

Lemma report_reads_keys_2_to_N_witness :
  3 <= INT_MAX
  /\ report (<[1 := mkFlowStats 9 9 9 9 9 9]>
               (<[2 := mkFlowStats 5120 0 10 0 2 0]> ∅)) 3
     = report (<[7 := mkFlowStats 1 2 3 4 5 6]>
                 (<[2 := mkFlowStats 5120 0 10 0 2 0]> ∅)) 3.
Proof.
  split; [unfold INT_MAX; lia|].
  apply report_reads_keys_2_to_N; [unfold INT_MAX; lia|].
  intros i Hi.
  rewrite lookup_insert_ne by lia. rewrite (lookup_insert_ne _ 7) by lia.
  reflexivity.
Defined.

(** X3. Called for fewer than two nodes, the reporting prints nothing,
    whatever the engine's map holds: the loop from 2 is not entered and the
    report is empty.  So the console of a run with one node is its line of
    progress alone. *)
Theorem report_empty_below_two engine (stats : FlowStatsContainer)
    (nWifi interval maxPackets : Z) :
  nWifi <= 1 ->
  report stats nWifi = []
  /\ lines (cout_tokens (trace (RunSimulation engine 1 interval maxPackets) tt))
     = [[Str "Simulation running..."]].
Proof.
  intros HN. split.
  - rewrite report_closed. now rewrite seqZ_nil by lia.
  - rewrite run_console, report_closed. reflexivity.
Qed.

Lemma report_empty_below_two_witness :
  1 <= 1
  /\ report (<[1 := mkFlowStats 5120 4096 10 8 2 1000000]> ∅) 1 = [].
Proof.
  split; [lia|].
  exact (proj1 (report_empty_below_two (fun _ _ _ => ∅)
                  (<[1 := mkFlowStats 5120 4096 10 8 2 1000000]> ∅) 1 5 10
                  ltac:(lia))).
Defined.

(** X4. For a flow that sent something (txPackets > 0, both counters
    32-bit), the loss ratio shown is never not-a-number nor infinite: it is
    zero or a finite positive number, exactly 0 when nothing was lost and
    exactly 100 when every packet sent was lost. *)
Theorem loss_ratio_finite_when_sent (stats : FlowStatsContainer) (nWifi i : Z) :
  2 <= i <= nWifi ->
  0 <= lostPackets (record_of stats i) <= UINT32_MAX ->
  0 < txPackets (record_of stats i) <= UINT32_MAX ->
  exists v,
    flow_line (report stats nWifi) i 6
    = Some [Str "Packet loss ratio: "; DblTok v; Str "%"]
    /\ (v = S754_zero false \/ exists m e, v = S754_finite false m e)
    /\ (lostPackets (record_of stats i) = 0 -> v = Z2double 0)
    /\ (lostPackets (record_of stats i) = txPackets (record_of stats i) ->
        v = Z2double 100).
Proof.
  intros Hi Hl Ht. eexists. split.
  { rewrite flow_line_closed by (auto; lia). reflexivity. }
  unfold spec_lossRatioPercent. split; [|split].
  - now apply loss_ratio_finite_value.
  - intros ->. now apply loss_ratio_none_lost.
  - intros ->. now apply loss_ratio_all_lost.
Qed.

Lemma loss_ratio_finite_when_sent_witness :
  2 <= 2 <= 2
  /\ 0 <= lostPackets (record_of (<[2 := mkFlowStats 5120 0 10 0 10 0]> ∅) 2)
          <= UINT32_MAX
  /\ 0 < txPackets (record_of (<[2 := mkFlowStats 5120 0 10 0 10 0]> ∅) 2)
         <= UINT32_MAX
  /\ exists v,
       flow_line (report (<[2 := mkFlowStats 5120 0 10 0 10 0]> ∅) 2) 2 6
       = Some [Str "Packet loss ratio: "; DblTok v; Str "%"]
       /\ (v = S754_zero false \/ exists m e, v = S754_finite false m e).
Proof.
  assert (0 <= lostPackets (record_of (<[2 := mkFlowStats 5120 0 10 0 10 0]> ∅) 2)
          <= UINT32_MAX) as Hl by (vm_compute; split; discriminate).
  assert (0 < txPackets (record_of (<[2 := mkFlowStats 5120 0 10 0 10 0]> ∅) 2)
          <= UINT32_MAX) as Ht by (vm_compute; split; [reflexivity | discriminate]).
  split; [lia|]. split; [exact Hl|]. split; [exact Ht|].
  destruct (loss_ratio_finite_when_sent (<[2 := mkFlowStats 5120 0 10 0 10 0]> ∅)
              2 2 ltac:(lia) Hl Ht)
    as (v & Hline & Hfin & _).
  exists v. split; [exact Hline | exact Hfin].
Defined.

(** ** The traffic pattern *)

Lemma clients_ring nWifi interval maxPackets nodes :
  2 <= nWifi <= INT_MAX ->
  clients (trace (SetupApplications nWifi interval maxPackets) nodes)
  = map (fun i => (i, (i + 1) mod nWifi)) (seqZ 0 nWifi).
Proof.
  intros HN. unfold INT_MAX in HN.
  rewrite clients_SetupApplications. apply map_seqZ_ext. intros i Hi.
  rewrite Z.rem_mod_nonneg by lia.
  pose proof (Z.mod_pos_bound (i + 1) nWifi ltac:(lia)).
  unfold Get. now rewrite !to_uint32_small by (unfold UINT32_MAX; lia).
Qed.

Lemma map_succ_seqZ_nat k : forall lo,
  map (fun i => i + 1) (seqZ lo (Z.of_nat k)) = seqZ (lo + 1) (Z.of_nat k).
Proof.
  induction k as [|k IH]; intros lo; [reflexivity|].
  rewrite !(seqZ_cons _ (Z.of_nat (S k))) by lia. cbn [map].
  replace (Z.pred (Z.of_nat (S k))) with (Z.of_nat k) by lia.
  rewrite IH. replace (Z.succ lo + 1) with (Z.succ (lo + 1)) by lia. reflexivity.
Qed.

Lemma map_succ_seqZ lo n : map (fun i => i + 1) (seqZ lo n) = seqZ (lo + 1) n.
Proof.
  destruct (Z.le_gt_cases n 0) as [Hn|Hn]; [now rewrite !seqZ_nil by lia|].
  rewrite <- (Z2Nat.id n) by lia. apply map_succ_seqZ_nat.
Qed.

(** X5. For N >= 2 the destinations of the clients 0, 1, ..., N-1 are
    1, 2, ..., N-1, 0: every node is addressed by one client, and no client
    addresses its own node. *)
Theorem destinations_rotate (nWifi interval maxPackets : Z) (nodes : NodeContainer) :
  2 <= nWifi <= INT_MAX ->
  map fst (clients (trace (SetupApplications nWifi interval maxPackets) nodes))
  = seqZ 0 nWifi
  /\ map snd (clients (trace (SetupApplications nWifi interval maxPackets) nodes))
     = seqZ 1 (nWifi - 1) ++ [0]
  /\ Permutation
       (map snd (clients (trace (SetupApplications nWifi interval maxPackets) nodes)))
       (seqZ 0 nWifi)
  /\ (forall i d,
        In (i, d) (clients (trace (SetupApplications nWifi interval maxPackets) nodes)) ->
        d <> i).
Proof.
  intros HN. rewrite clients_ring by assumption. unfold INT_MAX in HN.
  assert (map snd (map (fun i => (i, (i + 1) mod nWifi)) (seqZ 0 nWifi))
          = seqZ 1 (nWifi - 1) ++ [0]) as Hd.
  { rewrite map_map. cbn [snd].
    assert (seqZ 0 nWifi = seqZ 0 (nWifi - 1) ++ [nWifi - 1]) as ->.
    { replace nWifi with ((nWifi - 1) + 1) at 1 by lia.
      rewrite seqZ_app by lia. reflexivity. }
    rewrite map_app.
    rewrite (map_seqZ_ext _ (fun i => i + 1)).
    2:{ intros i Hi. apply Z.mod_small. lia. }
    rewrite map_succ_seqZ. cbn [map]. do 2 f_equal.
    replace (nWifi - 1 + 1) with nWifi by lia. apply Z.mod_same. lia. }
  repeat match goal with |- _ /\ _ => split end.
  - rewrite map_map. cbn [fst]. apply map_id.
  - exact Hd.
  - rewrite Hd. rewrite (seqZ_cons 0 nWifi) by lia.
    replace (Z.succ 0) with 1 by lia. replace (Z.pred nWifi) with (nWifi - 1) by lia.
    symmetry. apply Permutation_cons_append.
  - intros i d Hin. apply in_map_iff in Hin as [j [Hj Hin]].
    injection Hj as <- <-.
    apply list_elem_of_In, elem_of_seqZ in Hin.
    destruct (Z.eq_dec j (nWifi - 1)) as [->|Hne].
    + replace (nWifi - 1 + 1) with nWifi by lia. rewrite Z.mod_same by lia. lia.
    + rewrite Z.mod_small by lia. lia.
Qed.

Lemma destinations_rotate_witness :
  2 <= 4 <= INT_MAX
  /\ map snd (clients (trace (SetupApplications 4 5 10) 4)) = [1; 2; 3; 0].
Proof.
  split; [unfold INT_MAX; lia|].
  exact (proj1 (proj2 (destinations_rotate 4 5 10 4 ltac:(unfold INT_MAX; lia)))).
Defined.

(** X6. For N >= 2 exactly one client addresses the node the sink is on:
    client N - 2.  Every other client addresses a node without a sink. *)
Theorem one_client_addresses_the_sink (nWifi interval maxPackets : Z)
    (nodes : NodeContainer) :
  2 <= nWifi <= INT_MAX ->
  sinks (trace (SetupApplications nWifi interval maxPackets) nodes)
  = [(nWifi - 1, kPort)]
  /\ In (nWifi - 2, nWifi - 1)
        (clients (trace (SetupApplications nWifi interval maxPackets) nodes))
  /\ (forall i d,
        In (i, d) (clients (trace (SetupApplications nWifi interval maxPackets) nodes)) ->
        (d = nWifi - 1 <-> i = nWifi - 2)).
Proof.
  intros HN. rewrite clients_ring by assumption. unfold INT_MAX in HN.
  repeat match goal with |- _ /\ _ => split end.
  - rewrite sinks_SetupApplications. unfold Get.
    now rewrite to_uint32_small by (unfold UINT32_MAX; lia).
  - apply in_map_iff. exists (nWifi - 2). split.
    + f_equal. rewrite Z.mod_small by lia. lia.
    + apply list_elem_of_In, elem_of_seqZ. lia.
  - intros i d Hin. apply in_map_iff in Hin as [j [Hj Hin]].
    injection Hj as <- <-.
    apply list_elem_of_In, elem_of_seqZ in Hin.
    destruct (Z.eq_dec j (nWifi - 1)) as [->|Hne].
    + replace (nWifi - 1 + 1) with nWifi by lia.
      rewrite Z.mod_same by lia. lia.
    + rewrite Z.mod_small by lia. lia.
Qed.

Lemma one_client_addresses_the_sink_witness :
  2 <= 4 <= INT_MAX
  /\ In (2, 3) (clients (trace (SetupApplications 4 5 10) 4)).
Proof.
  split; [unfold INT_MAX; lia|].
  exact (proj1 (proj2 (one_client_addresses_the_sink 4 5 10 4
                         ltac:(unfold INT_MAX; lia)))).
Defined.

(** ** One run, as a whole *)

Lemma clients_run {St} engine nWifi interval maxPackets (s : St) :
  clients (trace (RunSimulation engine nWifi interval maxPackets) s)
  = map (fun i => (Get i, Get (Z.rem (i + 1) nWifi))) (seqZ 0 nWifi).
Proof.
  unfold clients. observe_run.
  rewrite (omap_map_some _ (client_event nWifi interval maxPackets)
             (fun i => (Get i, Get (Z.rem (i + 1) nWifi)))) by reflexivity.
  rewrite !omap_map_none by reflexivity. cbn. now rewrite app_nil_r.
Qed.

Lemma sinks_run {St} engine nWifi interval maxPackets (s : St) :
  sinks (trace (RunSimulation engine nWifi interval maxPackets) s)
  = [(Get (nWifi - 1), kPort)].
Proof.
  unfold sinks. observe_run.
  rewrite !omap_map_none by reflexivity. reflexivity.
Qed.

Lemma animation_positions_run {St} engine nWifi interval maxPackets (s : St) :
  animation_positions (trace (RunSimulation engine nWifi interval maxPackets) s)
  = map (fun i => (Get i, (i * 10, 0))) (seqZ 0 nWifi).
Proof.
  unfold animation_positions. observe_run.
  rewrite (omap_map_some _ (fun i => SetConstantPosition (Get i) (i * 10) 0)
             (fun i => (Get i, (i * 10, 0)))) by reflexivity.
  rewrite !omap_map_none by reflexivity. cbn. now rewrite app_nil_r.
Qed.

Lemma pcap_file_inj i j : pcap_file i = pcap_file j -> i = j.
Proof. apply name_inj. Qed.

(** X7. The packet captures of a run are named from the device index
    alone: within a run the names are pairwise distinct, but a run with
    more nodes asks again for every name of a run with fewer; the captures
    of one run of the sweep are not kept apart from those of the next. *)
Theorem capture_names_are_reused engine (n m interval maxPackets : Z) :
  0 <= n <= m -> m <= INT_MAX ->
  NoDup (captures (trace (RunSimulation engine n interval maxPackets) tt))
  /\ exists more,
       captures (trace (RunSimulation engine m interval maxPackets) tt)
       = captures (trace (RunSimulation engine n interval maxPackets) tt) ++ more.
Proof.
  intros Hn Hm. unfold INT_MAX in Hm. rewrite !captures_run.
  rewrite !to_uint32_small by (unfold UINT32_MAX; lia). split.
  - assert (Inj eq eq pcap_file) as Hinj by (intros i j; apply pcap_file_inj).
    apply (NoDup_fmap_2 pcap_file), NoDup_seqZ.
  - exists (map pcap_file (seqZ n (m - n))).
    rewrite <- map_app. f_equal.
    replace m with (n + (m - n)) at 1 by lia.
    rewrite seqZ_app by lia. reflexivity.
Qed.

Lemma capture_names_are_reused_witness :
  0 <= 2 <= 3 /\ 3 <= INT_MAX
  /\ exists more,
       captures (trace (RunSimulation (fun _ _ _ => ∅) 3 5 10) tt)
       = captures (trace (RunSimulation (fun _ _ _ => ∅) 2 5 10) tt) ++ more.
Proof.
  split; [lia|]. split; [unfold INT_MAX; lia|].
  exact (proj2 (capture_names_are_reused (fun _ _ _ => ∅) 2 3 5 10
                  ltac:(lia) ltac:(unfold INT_MAX; lia))).
Defined.

(** X8. A run has three phases in this order.  Everything is installed
    first (nodes, captures, clients, sink), with no file written and the
    animation not yet attached; then the scheduler is run and the simulator
    destroyed at once; only then are the flow report and the animation
    written, and the statistics printed, with nothing installed any
    more. *)
Theorem run_phases engine (nWifi interval maxPackets : Z) :
  exists setup export,
    trace (RunSimulation engine nWifi interval maxPackets) tt
    = setup ++ [SimulatorRun; SimulatorDestroy] ++ export
    /\ lifecycle setup = [NodesCreate (to_uint32 nWifi)]
    /\ artifacts setup = []
    /\ animation_positions setup = []
    /\ cout_tokens setup = [Str "Simulation running..."; Endl]
    /\ lifecycle export = []
    /\ clients export = [] /\ sinks export = [] /\ captures export = []
    /\ artifacts export = [flowmonitor_file nWifi; anim_file nWifi]
    /\ lines (cout_tokens export) = report (engine nWifi interval maxPackets) nWifi.
Proof.
  exists
    ([LogComponentEnable "UdpEchoClientApplication";
      LogComponentEnable "UdpEchoServerApplication";
      ConfigSetDefault "ns3::WifiRemoteStationManager::RtsCtsThreshold" 1000;
      NodesCreate (to_uint32 nWifi);
      SetPositionAllocator kMinX kMinY kDeltaX kDeltaY kGridWidth "RowFirst";
      SetMobilityModel "ns3::ConstantPositionMobilityModel";
      MobilityInstall (to_uint32 nWifi);
      WifiInstall "WIFI_STANDARD_80211p" "ns3::AdhocWifiMac" (to_uint32 nWifi);
      InternetStackInstall (to_uint32 nWifi);
      AddressAssign "10.1.1.0" "255.255.255.0"; PopulateRoutingTables]
     ++ map (fun i => EnablePcap (pcap_file i) i) (seqZ 0 (to_uint32 nWifi))
     ++ [FlowMonitorInstallAll]
     ++ map (client_event nWifi interval maxPackets) (seqZ 0 nWifi)
     ++ [server_event nWifi; SimulatorStop kSimulationStopTime;
         Cout (Str "Simulation running..."); Cout Endl]),
    ([SerializeToXmlFile (flowmonitor_file nWifi); AnimationOpen (anim_file nWifi)]
     ++ map (fun i => SetConstantPosition (Get i) (i * 10) 0) (seqZ 0 nWifi)
     ++ [AnimationClose]
     ++ trace (PrintFlowStatistics (St:=NodeContainer)
                 (engine nWifi interval maxPackets) nWifi) (to_uint32 nWifi)).
  split.
  { unfold trace at 1. rewrite RunSimulation_run. cbn [snd].
    rewrite <- !app_assoc. reflexivity. }
  unfold lifecycle, artifacts, animation_positions, cout_tokens, clients, sinks,
    captures.
  rewrite !omap_app.
  rewrite !(omap_report_events _ (trace _ _))
    by (first [ now intros [] | apply PrintFlowStatistics_report_events ]).
  rewrite !omap_map_none by reflexivity.
  repeat match goal with |- _ /\ _ => split end; try reflexivity.
  unfold report. now rewrite !PrintFlowStatistics_trace.
Qed.

(** X9. In a run with N >= 1 nodes, what is installed matches the nodes
    created: N nodes, and for each of the nodes 0, ..., N-1 in turn one
    capture, one client and one animation position; the one sink is on a
    node that exists. *)
Theorem run_installs_per_node engine (nWifi interval maxPackets : Z) :
  1 <= nWifi <= INT_MAX ->
  runs (trace (RunSimulation engine nWifi interval maxPackets) tt) = [nWifi]
  /\ captures (trace (RunSimulation engine nWifi interval maxPackets) tt)
     = map pcap_file (seqZ 0 nWifi)
  /\ map fst (clients (trace (RunSimulation engine nWifi interval maxPackets) tt))
     = seqZ 0 nWifi
  /\ map fst (animation_positions
                (trace (RunSimulation engine nWifi interval maxPackets) tt))
     = seqZ 0 nWifi
  /\ exists node,
       sinks (trace (RunSimulation engine nWifi interval maxPackets) tt)
       = [(node, kPort)] /\ 0 <= node < nWifi.
Proof.
  intros HN. unfold INT_MAX in HN.
  rewrite runs_run, captures_run, clients_run, animation_positions_run, sinks_run.
  unfold Get. rewrite !to_uint32_small by (unfold UINT32_MAX; lia).
  repeat match goal with |- _ /\ _ => split end.
  - reflexivity.
  - reflexivity.
  - rewrite map_map. cbn [fst]. rewrite <- (map_id (seqZ 0 nWifi)) at 2.
    apply map_seqZ_ext. intros i Hi.
    now rewrite to_uint32_small by (unfold UINT32_MAX; lia).
  - rewrite map_map. cbn [fst]. rewrite <- (map_id (seqZ 0 nWifi)) at 2.
    apply map_seqZ_ext. intros i Hi.
    now rewrite to_uint32_small by (unfold UINT32_MAX; lia).
  - exists (nWifi - 1). split; [reflexivity | lia].
Qed.

Lemma run_installs_per_node_witness :
  1 <= 3 <= INT_MAX
  /\ runs (trace (RunSimulation (fun _ _ _ => ∅) 3 5 10) tt) = [3].
Proof.
  split; [unfold INT_MAX; lia|].
  exact (proj1 (run_installs_per_node (fun _ _ _ => ∅) 3 5 10
                  ltac:(unfold INT_MAX; lia))).
Defined.

(** ** The sweep, as a whole *)

Lemma omap_main {B} (f : Event -> option B) (g : Z -> list B)
    engine interval maxPackets :
  (forall node,
     omap f (trace (RunSimulation engine node interval maxPackets) tt
             ++ [Cout (Str "Simulation for "); Cout (IntTok node);
                 Cout (Str " nodes"); Cout Endl]) = g node) ->
  omap f (trace (main engine interval maxPackets) tt) = flat_map g (seqZ 2 29).
Proof.
  intros H. rewrite main_trace, omap_flat_map.
  apply flat_map_ext. exact H.
Qed.

Lemma artifacts_main engine interval maxPackets :
  artifacts (trace (main engine interval maxPackets) tt)
  = flat_map (fun node => [flowmonitor_file node; anim_file node]) (seqZ 2 29).
Proof.
  apply omap_main. intros node. rewrite omap_app.
  fold (artifacts (trace (RunSimulation engine node interval maxPackets) tt)).
  rewrite artifacts_run. reflexivity.
Qed.

(** X10. The sweep writes 58 result files, two per run, and no two of them
    have the same name: no run overwrites the flow report or the animation
    of another. *)
Theorem sweep_artifacts_are_distinct engine (interval maxPackets : Z) :
  artifacts (trace (main engine interval maxPackets) tt)
  = flat_map (fun node => [flowmonitor_file node; anim_file node]) (seqZ 2 29)
  /\ length (artifacts (trace (main engine interval maxPackets) tt)) = 58%nat
  /\ NoDup (artifacts (trace (main engine interval maxPackets) tt)).
Proof.
  rewrite artifacts_main. split; [reflexivity|]. split; [reflexivity|].
  apply (bool_decide_unpack _). vm_compute. exact I.
Qed.

Lemma flat_map_nil {A B} (l : list A) : flat_map (fun _ => @nil B) l = [].
Proof. induction l as [|a l IH]; [reflexivity | exact IH]. Qed.

Lemma engine_calls_report {St} stats nWifi (s : St) :
  engine_calls (trace (PrintFlowStatistics stats nWifi) s) = [CheckForLostPackets].
Proof.
  rewrite PrintFlowStatistics_trace. unfold engine_calls.
  change (CheckForLostPackets :: ?l) with ([CheckForLostPackets] ++ l).
  rewrite omap_app, omap_flat_map.
  erewrite flat_map_ext; [rewrite flat_map_nil; reflexivity|].
  intros i. cbv beta. now rewrite omap_map_none by reflexivity.
Qed.

Lemma engine_calls_run {St} engine nWifi interval maxPackets (s : St) :
  engine_calls (trace (RunSimulation engine nWifi interval maxPackets) s)
  = engine_calls (trace (RunSimulation (fun _ _ _ => ∅) nWifi interval maxPackets) s).
Proof.
  unfold trace. rewrite !RunSimulation_run. cbn [snd].
  unfold engine_calls. rewrite !omap_app.
  fold (engine_calls (trace (PrintFlowStatistics (St:=NodeContainer)
                               (engine nWifi interval maxPackets) nWifi)
                            (to_uint32 nWifi))).
  fold (engine_calls (trace (PrintFlowStatistics (St:=NodeContainer)
                               ∅ nWifi) (to_uint32 nWifi))).
  now rewrite !engine_calls_report.
Qed.

(** X11. What the program asks of the engine does not depend on the
    statistics the engine returns: the calls of a run, and of the whole
    sweep, are the same whatever the flow monitors hold; only the console
    differs. *)
Theorem engine_calls_ignore_statistics engine1 engine2 (nWifi interval maxPackets : Z) :
  engine_calls (trace (RunSimulation engine1 nWifi interval maxPackets) tt)
  = engine_calls (trace (RunSimulation engine2 nWifi interval maxPackets) tt)
  /\ engine_calls (trace (main engine1 interval maxPackets) tt)
     = engine_calls (trace (main engine2 interval maxPackets) tt).
Proof.
  split.
  - now rewrite (engine_calls_run engine1), (engine_calls_run engine2).
  - unfold engine_calls. rewrite !main_trace, !omap_flat_map.
    apply flat_map_ext. intros node. rewrite !omap_app. f_equal.
    fold (engine_calls (trace (RunSimulation engine1 node interval maxPackets) tt)).
    fold (engine_calls (trace (RunSimulation engine2 node interval maxPackets) tt)).
    now rewrite (engine_calls_run engine1), (engine_calls_run engine2).
Qed.

Lemma report_no_endl stats nWifi :
  Forall (Forall (fun t => is_endl t = false)) (report stats nWifi).
Proof.
  rewrite report_closed.
  induction (seqZ 2 (nWifi - 1)) as [|i ids IH]; [constructor|].
  cbn [flat_map]. apply Forall_app. split; [apply flow_lines_no_endl | exact IH].
Qed.

Lemma cout_tokens_report {St} stats nWifi (s : St) :
  cout_tokens (trace (PrintFlowStatistics stats nWifi) s)
  = flat_map (fun l => l ++ [Endl]) (report stats nWifi).
Proof.
  rewrite PrintFlowStatistics_trace, report_closed, flat_map_flat_map.
  change (cout_tokens (CheckForLostPackets :: ?t)) with (cout_tokens t).
  apply (cout_tokens_flat_map
           (fun i => flat_map (fun l => l ++ [Endl])
                       (flow_lines i (record_of stats i)))).
Qed.

Lemma cout_tokens_run {St} engine nWifi interval maxPackets (s : St) :
  cout_tokens (trace (RunSimulation engine nWifi interval maxPackets) s)
  = flat_map (fun l => l ++ [Endl])
      ([Str "Simulation running..."] :: report (engine nWifi interval maxPackets) nWifi).
Proof.
  unfold trace at 1. rewrite RunSimulation_run. cbn [snd].
  rewrite !cout_tokens_app, cout_tokens_report.
  unfold cout_tokens. rewrite !omap_map_none by reflexivity.
  reflexivity.
Qed.

(** X12. The console of the sweep is, for each node count 2, ..., 30 in
    turn: the line of progress, the flow report of that run, and the line
    that names the node count; nothing else is printed. *)
Theorem sweep_console engine (interval maxPackets : Z) :
  lines (cout_tokens (trace (main engine interval maxPackets) tt))
  = flat_map (fun node =>
      [Str "Simulation running..."]
      :: report (engine node interval maxPackets) node
      ++ [[Str "Simulation for "; IntTok node; Str " nodes"]])
      (seqZ 2 29).
Proof.
  unfold cout_tokens.
  rewrite (omap_main _ (fun node =>
      flat_map (fun l => l ++ [Endl])
        ([Str "Simulation running..."]
         :: report (engine node interval maxPackets) node
         ++ [[Str "Simulation for "; IntTok node; Str " nodes"]]))).
  2:{ intros node. rewrite omap_app.
      fold (cout_tokens (trace (RunSimulation engine node interval maxPackets) tt)).
      rewrite cout_tokens_run, app_comm_cons, flat_map_app. reflexivity. }
  rewrite <- flat_map_flat_map. apply lines_flat_map.
  induction (seqZ 2 29) as [|node ns IH]; [constructor|].
  cbn [flat_map]. apply Forall_app. split; [|exact IH].
  constructor; [repeat constructor|].
  apply Forall_app. split; [apply report_no_endl | repeat constructor].
Qed.

(** ** Bitrates stay finite *)

Lemma Z2double_uint64 z :
  0 < z < 2 ^ 64 ->
  Z2double z = S754_zero false
  \/ exists m e,
       Z2double z = S754_finite false m e
       /\ Z.pos m < 2 ^ 65 /\ -52 <= e <= 129.
Proof.
  intros Hz. destruct z as [|p|p]; try lia.
  unfold Z2double, binary_normalize, binary_round.
  pose proof (digits2_pos_bound p 64 ltac:(lia) ltac:(lia)) as Hd.
  assert (exists mz ez,
            shl_align p 0 (fexp 53 1024 (Z.pos (digits2_pos p) + 0)) = (mz, ez)
            /\ Z.pos mz < 2 ^ 64 /\ -52 <= ez <= 0) as (mz & ez & -> & Hmz & Hez).
  { unfold shl_align.
    destruct (fexp 53 1024 (Z.pos (digits2_pos p) + 0) - 0) as [|k|k] eqn:Ek.
    - exists p, 0. repeat split; lia.
    - exists p, 0. repeat split; lia.
    - eexists _, _. split; [reflexivity|].
      assert (Z.pos (digits2_pos p) + Z.pos k = 53) as Hk
        by (unfold fexp, emin in Ek; lia).
      split; [|unfold fexp, emin in *; lia].
      pose proof (digits2_pos_gt (Pos.iter xO p k)) as Hgt.
      rewrite digits2_pos_iter_xO, Hk in Hgt.
      change (2 ^ 64) with (2 ^ 53 * 2 ^ 11). lia. }
  destruct (binary_round_aux_finite false (Z.pos mz) ez loc_Exact 64
              ltac:(lia) ltac:(lia) ltac:(lia) ltac:(lia))
    as [-> | (m' & e' & -> & Hm' & He')]; [now left|].
  right. exists m', e'. split; [reflexivity|].
  split; [change (2 ^ 65) with (2 ^ 64 * 2)|]; lia.
Qed.

Lemma SFdiv_core_bounds m1 e1 m2 e2 K :
  0 <= K -> Z.pos m1 < 2 ^ K -> Z.pos (digits2_pos m2) = 53 ->
  exists q e' l,
    SFdiv_core_binary 53 1024 (Z.pos m1) e1 (Z.pos m2) e2 = (q, e', l)
    /\ 0 <= q < 2 ^ (K + 106)
    /\ Z.min (-1074) (e1 - e2) <= e' <= e1 - e2.
Proof.
  intros HK Hm1 Hd2. unfold SFdiv_core_binary. cbn [Zdigits2]. rewrite Hd2.
  pose proof (digits2_pos_bound m1 K HK Hm1) as Hd1.
  set (d1 := Z.pos (digits2_pos m1)) in *.
  set (e' := Z.min (fexp 53 1024 (d1 + e1 - (53 + e2))) (e1 - e2)).
  assert (0 <= e1 - e2 - e' <= 106) as Hs by (unfold e', fexp, emin; lia).
  assert (Z.min (-1074) (e1 - e2) <= e' <= e1 - e2) as He'
    by (unfold e', fexp, emin; lia).
  set (m' := match e1 - e2 - e' with
             | 0 => Z.pos m1
             | Z.pos _ => Z.shiftl (Z.pos m1) (e1 - e2 - e')
             | Z.neg _ => 0
             end).
  assert (0 <= m' < 2 ^ (K + 106)) as Hm'.
  { assert (2 ^ K <= 2 ^ (K + 106)) by (apply Z.pow_le_mono_r; lia).
    unfold m'. destruct (e1 - e2 - e') as [|s|s] eqn:Es; try lia.
    rewrite Z.shiftl_mul_pow2 by lia.
    assert (0 < 2 ^ Z.pos s <= 2 ^ 106)
      by (split; [apply Z.pow_pos_nonneg | apply Z.pow_le_mono_r]; lia).
    rewrite Z.pow_add_r by lia. nia. }
  pose proof (Z_div_mod m' (Z.pos m2) ltac:(lia)) as Hdiv.
  destruct (Z.div_eucl m' (Z.pos m2)) as [q r].
  exists q, e', (new_location (Z.pos m2) r). split; [reflexivity|].
  split; [nia | exact He'].
Qed.

(** The rate shown for a byte count from 1 to 2^64 - 1 over the 24 s of a
    run is zero or a finite positive number. *)
Lemma bitrate_finite_value bytes :
  0 < bytes < 2 ^ 64 ->
  exists v,
    spec_bitrateKbps bytes 24 = Some v
    /\ (v = S754_zero false \/ exists m e, v = S754_finite false m e).
Proof.
  intros Hb. unfold spec_bitrateKbps.
  replace (0 <? bytes) with true by (symmetry; apply Z.ltb_lt; lia).
  eexists. split; [reflexivity|].
  replace (dmul (Z2double 24) (Z2double 1000))
    with (S754_finite false 6597069766656000 (-38)) by (vm_compute; reflexivity).
  replace (Z2double 8) with (S754_finite false 4503599627370496 (-49))
    by (vm_compute; reflexivity).
  destruct (Z2double_uint64 bytes Hb) as [-> | (m & e & -> & Hm & He)];
    [now left|].
  unfold dmul, SFmul. cbn [xorb].
  assert (0 <= Z.pos (m * 4503599627370496) < 2 ^ 117) as Hp.
  { rewrite Pos2Z.inj_mul. change (2 ^ 117) with (2 ^ 65 * 4503599627370496). nia. }
  destruct (binary_round_aux_finite false (Z.pos (m * 4503599627370496))
              (e + -49) loc_Exact 117 ltac:(lia) Hp ltac:(lia) ltac:(lia))
    as [-> | (m' & e' & -> & Hm' & He')]; [now left|].
  unfold ddiv, SFdiv. cbn [xorb].
  destruct (SFdiv_core_bounds m' e' 6597069766656000 (-38) 118 ltac:(lia)
              ltac:(change (2 ^ 118) with (2 ^ 117 * 2); lia) eq_refl)
    as (q & eq & l & -> & Hq & Heq).
  change (118 + 106) with 224 in Hq.
  destruct (binary_round_aux_finite false q eq l 224
              ltac:(lia) Hq ltac:(lia) ltac:(lia))
    as [-> | (m'' & e'' & -> & _)].
  - now left.
  - right. now exists m'', e''.
Qed.

(** X13. For a flow whose byte counters are 64-bit, a bitrate that is
    shown is never not-a-number nor infinite: with txBytes > 0 the TX line
    shows zero or a finite positive number of kbit/s, and with rxBytes > 0
    so does the RX line. *)
Theorem bitrates_are_finite (stats : FlowStatsContainer) (nWifi i : Z) :
  2 <= i <= nWifi ->
  (0 < txBytes (record_of stats i) < 2 ^ 64 ->
   exists v,
     flow_line (report stats nWifi) i 1
     = Some [Str "TX bitrates: "; DblTok v; Str " kbit/s"]
     /\ (v = S754_zero false \/ exists m e, v = S754_finite false m e))
  /\ (0 < rxBytes (record_of stats i) < 2 ^ 64 ->
      exists v,
        flow_line (report stats nWifi) i 2
        = Some [Str "RX bitrate: "; DblTok v; Str " kbit/s"]
        /\ (v = S754_zero false \/ exists m e, v = S754_finite false m e)).
Proof.
  intros Hi. split; intros Hb;
    destruct (bitrate_finite_value _ Hb) as (v & Hv & Hfin);
    exists v; (split; [|exact Hfin]);
    rewrite flow_line_closed by (auto; lia); cbn; now rewrite Hv.
Qed.

Lemma bitrates_are_finite_witness :
  2 <= 2 <= 2
  /\ 0 < txBytes (record_of (<[2 := mkFlowStats 51200 0 10 0 2 0]> ∅) 2) < 2 ^ 64
  /\ exists v,
       flow_line (report (<[2 := mkFlowStats 51200 0 10 0 2 0]> ∅) 2) 2 1
       = Some [Str "TX bitrates: "; DblTok v; Str " kbit/s"]
       /\ (v = S754_zero false \/ exists m e, v = S754_finite false m e).
Proof.
  assert (0 < txBytes (record_of (<[2 := mkFlowStats 51200 0 10 0 2 0]> ∅) 2)
          < 2 ^ 64) as Hb by (vm_compute; split; reflexivity).
  split; [lia|]. split; [exact Hb|].
  exact (proj1 (bitrates_are_finite (<[2 := mkFlowStats 51200 0 10 0 2 0]> ∅) 2 2
                  ltac:(lia)) Hb).
Defined.

(** ** The patterns the sweep builds *)

Lemma sinks_main engine interval maxPackets :
  sinks (trace (main engine interval maxPackets) tt)
  = map (fun n => (n - 1, 443)) (seqZ 2 29).
Proof.
  unfold sinks.
  rewrite (omap_main _ (fun node => [(Get (node - 1), kPort)])).
  - vm_compute. reflexivity.
  - intros node. rewrite omap_app.
    fold (sinks (trace (RunSimulation engine node interval maxPackets) tt)).
    rewrite sinks_run. reflexivity.
Qed.

Lemma clients_main engine interval maxPackets :
  clients (trace (main engine interval maxPackets) tt)
  = flat_map (fun n => map (fun i => (i, (i + 1) mod n)) (seqZ 0 n)) (seqZ 2 29).
Proof.
  unfold clients.
  rewrite (omap_main _ (fun node =>
             map (fun i => (Get i, Get (Z.rem (i + 1) node))) (seqZ 0 node))).
  - vm_compute. reflexivity.
  - intros node. rewrite omap_app.
    fold (clients (trace (RunSimulation engine node interval maxPackets) tt)).
    rewrite clients_run. cbn. now rewrite app_nil_r.
Qed.

(** C5, amended.  [SetupApplications] makes no check of the size and has
    no error to report: with N = 1, on a container that has node 0, it
    installs one client on node 0 addressing node 0, and the sink on node
    0.  The sweep itself never builds the pattern of a size below 2: the
    patterns it installs are the rings of the sizes 2, ..., 30, their sinks
    are on the nodes 1, ..., 29, and no client of the sweep addresses its
    own node. *)
Theorem setup_has_no_size_check engine (interval maxPackets : Z) (nodes : NodeContainer) :
  1 <= nodes ->
  SetupApplications 1 interval maxPackets nodes
  = (tt, nodes,
     [EchoClientInstall 0 0 443 (to_uint64 maxPackets) interval 512
        (Seconds 1) (Seconds 25);
      EchoServerInstall 0 443 (Seconds 1) (Seconds 25)])
  /\ Forall (fun n => 2 <= n)
            (runs (trace (main engine interval maxPackets) tt))
  /\ sinks (trace (main engine interval maxPackets) tt)
     = map (fun n => (n - 1, 443)) (seqZ 2 29)
  /\ clients (trace (main engine interval maxPackets) tt)
     = flat_map (fun n => map (fun i => (i, (i + 1) mod n)) (seqZ 0 n))
                (seqZ 2 29)
  /\ Forall (fun c => c.1 <> c.2)
            (clients (trace (main engine interval maxPackets) tt)).
Proof.
  intros Hnodes.
  split; [reflexivity|].
  split.
  { rewrite runs_main. apply Forall_forall. intros n Hn.
    apply elem_of_seqZ in Hn. lia. }
  split; [apply sinks_main|].
  split; [apply clients_main|].
  rewrite clients_main.
  apply (bool_decide_unpack _). vm_compute. exact I.
Qed.

Lemma setup_has_no_size_check_witness :
  1 <= 1
  /\ SetupApplications 1 5 10 1
     = (tt, 1,
        [EchoClientInstall 0 0 443 10 5 512 (Seconds 1) (Seconds 25);
         EchoServerInstall 0 443 (Seconds 1) (Seconds 25)]).
Proof.
  split; [lia|].
  exact (proj1 (setup_has_no_size_check (fun _ _ _ => ∅) 5 10 1 ltac:(lia))).
Defined.
